(** * avax-mp-sdk: the Query Client (src/read.ts) and the Trade Client
      (src/index.ts) as a shallow embedding.

    The SDK is a thin layer of JavaScript over three collaborators: axios
    (HTTP), the ethers wallet, and the helper module ./utils/helpers.  The
    embedding keeps the JavaScript the source relies on explicit:

    - values are [JsVal] trees, with property access, truthiness, loose
      equality with the number 1 and [BigInt(...)] written out;
    - [JSON.stringify] maps a value to a [Json] tree (the wire text up to
      parsing), dropping [undefined] properties as JavaScript does;
    - an [async] method is a computation in the monad [M]: it threads the
      trace of collaborator calls issued so far and either returns a value
      or throws an [Error];
    - the collaborators are an environment [Env] that answers every call,
      possibly depending on the calls that came before. *)

From Stdlib Require Import String Ascii ZArith NArith List Bool Lia.
From Stdlib Require Import DecimalString.
From Stdlib Require DecimalPos.
Import ListNotations.

Local Open Scope string_scope.
Local Open Scope Z_scope.

#[local] Set Warnings "-register-all".

(** ** JavaScript values *)

(** Numbers are the integer-valued doubles (prices, receipt statuses and
    array lengths); [JBigInt] is the arbitrary-precision integer type. *)
Inductive JsVal : Type :=
| JUndefined
| JNull
| JBool (b : bool)
| JNum (n : Z)
| JBigInt (n : Z)
| JStr (s : string)
| JArr (elems : list JsVal)
| JObj (props : list (string * JsVal)).

(** Every exception of the runtime, of axios and of the wallet library is
    an [Error] instance: a name and a message. *)
Record JsError : Type := mkError { err_name : string; message : string }.

Inductive JsResult (A : Type) : Type :=
| Return (a : A)
| Throw (e : JsError).
Arguments Return {A} a.
Arguments Throw {A} e.

Definition TypeError (msg : string) : JsError := mkError "TypeError" msg.
Definition SyntaxError (msg : string) : JsError := mkError "SyntaxError" msg.

Definition rbind {A B} (r : JsResult A) (k : A -> JsResult B) : JsResult B :=
  match r with
  | Return a => k a
  | Throw e => Throw e
  end.

Declare Scope js_scope.
Delimit Scope js_scope with js.
Notation "x <~ r ; k" := (rbind r (fun x => k))
  (at level 61, r at next level, right associativity) : js_scope.

(** *** Property access *)

Fixpoint lookup {A} (k : string) (ps : list (string * A)) : option A :=
  match ps with
  | [] => None
  | (k', v) :: rest => if String.eqb k k' then Some v else lookup k rest
  end.

Definition is_nullish (v : JsVal) : bool :=
  match v with
  | JUndefined | JNull => true
  | _ => false
  end.

Definition type_name (v : JsVal) : string :=
  match v with
  | JNull => "null"
  | _ => "undefined"
  end.

(** [v.k] for a property name [k] that is not an array index.  Reading a
    property of [undefined] or [null] throws a TypeError; a missing property
    reads as [undefined]. *)
Definition js_get (v : JsVal) (k : string) : JsResult JsVal :=
  match v with
  | JUndefined | JNull =>
      Throw (TypeError ("Cannot read properties of " ++ type_name v
                        ++ " (reading '" ++ k ++ "')"))
  | JObj ps => Return (match lookup k ps with Some x => x | None => JUndefined end)
  | JArr l => Return (if String.eqb k "length" then JNum (Z.of_nat (List.length l))
                      else JUndefined)
  | JStr s => Return (if String.eqb k "length" then JNum (Z.of_nat (String.length s))
                      else JUndefined)
  | _ => Return JUndefined
  end.

(** [v[0]] *)
Definition js_first (v : JsVal) : JsResult JsVal :=
  match v with
  | JUndefined | JNull =>
      Throw (TypeError ("Cannot read properties of " ++ type_name v
                        ++ " (reading '0')"))
  | JObj ps => Return (match lookup "0" ps with Some x => x | None => JUndefined end)
  | JArr l => Return (match l with x :: _ => x | [] => JUndefined end)
  | JStr s => Return (match s with
                      | String c _ => JStr (String c EmptyString)
                      | EmptyString => JUndefined
                      end)
  | _ => Return JUndefined
  end.

(** [v?.k] *)
Definition js_get_opt (v : JsVal) (k : string) : JsResult JsVal :=
  if is_nullish v then Return JUndefined else js_get v k.

(** ToBoolean *)
Definition truthy (v : JsVal) : bool :=
  match v with
  | JUndefined | JNull => false
  | JBool b => b
  | JNum n => negb (n =? 0)
  | JBigInt n => negb (n =? 0)
  | JStr s => negb (String.eqb s "")
  | JArr _ | JObj _ => true
  end.

(** *** Numeric strings *)

Definition is_space (c : ascii) : bool :=
  let n := nat_of_ascii c in
  (Nat.eqb n 32 || (Nat.leb 9 n && Nat.leb n 13))%bool.

Fixpoint trim_left (s : string) : string :=
  match s with
  | String c r => if is_space c then trim_left r else s
  | EmptyString => EmptyString
  end.

Fixpoint rev_string (s acc : string) : string :=
  match s with
  | EmptyString => acc
  | String c r => rev_string r (String c acc)
  end.

Definition trim (s : string) : string :=
  rev_string (trim_left (rev_string (trim_left s) "")) "".

(** The value of a digit in the given base. *)
Definition digit_value (base : Z) (c : ascii) : option Z :=
  let n := Z.of_nat (nat_of_ascii c) in
  let d := if (48 <=? n) && (n <=? 57) then Some (n - 48)
           else if (97 <=? n) && (n <=? 102) then Some (n - 87)
           else if (65 <=? n) && (n <=? 70) then Some (n - 55)
           else None in
  match d with
  | Some v => if v <? base then Some v else None
  | None => None
  end.

(** The mathematical value of a run of digits, most significant first. *)
Fixpoint digits_value (base : Z) (acc : Z) (s : string) : option Z :=
  match s with
  | EmptyString => Some acc
  | String c r =>
      match digit_value base c with
      | Some d => digits_value base (acc * base + d) r
      | None => None
      end
  end.

Definition nonempty_digits (base : Z) (s : string) : option Z :=
  match s with
  | EmptyString => None
  | _ => digits_value base 0 s
  end.

(** A 0x, 0o or 0b prefix (in either case) and the digits after it. *)
Definition radix_prefix (s : string) : option (Z * string) :=
  match s with
  | String c0 (String c1 r) =>
      if Ascii.eqb c0 "0"
      then if Ascii.eqb c1 "x" || Ascii.eqb c1 "X" then Some (16, r)
           else if Ascii.eqb c1 "o" || Ascii.eqb c1 "O" then Some (8, r)
           else if Ascii.eqb c1 "b" || Ascii.eqb c1 "B" then Some (2, r)
           else None
      else None
  | _ => None
  end.

(** StringIntegerLiteral: blank is 0; a 0x, 0o or 0b prefix selects the
    base; otherwise an optionally signed run of decimal digits. *)
Definition parse_integer_literal (s : string) : option Z :=
  match trim s with
  | EmptyString => Some 0
  | String c r as t =>
      if Ascii.eqb c "-" then option_map Z.opp (nonempty_digits 10 r)
      else if Ascii.eqb c "+" then nonempty_digits 10 r
      else match radix_prefix t with
           | Some (base, digits) => nonempty_digits base digits
           | None => nonempty_digits 10 t
           end
  end.

(** Number::toString and BigInt::toString on integers.  For a number this
    is exact on the safe integers (magnitude below 2^53), which a double
    holds exactly and JavaScript prints digit by digit; beyond them a double
    rounds, and from 1e21 on it is printed in exponent notation. *)
Definition Z_to_string (n : Z) : string :=
  NilZero.string_of_int (Z.to_int n).

(** ToString, as used by string concatenation and by conversions of
    arrays to primitives. *)
Fixpoint to_string (v : JsVal) : string :=
  match v with
  | JUndefined => "undefined"
  | JNull => "null"
  | JBool true => "true"
  | JBool false => "false"
  | JNum n => Z_to_string n
  | JBigInt n => Z_to_string n
  | JStr s => s
  | JObj _ => "[object Object]"
  | JArr l =>
      (fix join (l : list JsVal) : string :=
         match l with
         | [] => ""
         | x :: r =>
             let sx := if is_nullish x then "" else to_string x in
             match r with
             | [] => sx
             | _ => sx ++ "," ++ join r
             end
         end) l
  end.

(** [BigInt(v)] *)
Definition BigInt (v : JsVal) : JsResult Z :=
  match v with
  | JUndefined | JNull =>
      Throw (TypeError ("Cannot convert " ++ to_string v ++ " to a BigInt"))
  | JBool b => Return (if b then 1 else 0)
  | JNum n => Return n
  | JBigInt n => Return n
  | JStr _ | JArr _ | JObj _ =>
      match parse_integer_literal (to_string v) with
      | Some n => Return n
      | None => Throw (SyntaxError ("Cannot convert " ++ to_string v ++ " to a BigInt"))
      end
  end.

(** [v == 1].  A string (or an array or object, through its string form)
    compares by its numeric value; the strings covered are the integer
    literals, so this is JavaScript's comparison on numbers, booleans,
    BigInts, [null] and [undefined], and on strings without a fraction or
    an exponent ("1.0" and "1e0" are [== 1] in JavaScript and not here). *)
Definition loose_eq_one (v : JsVal) : bool :=
  match v with
  | JUndefined | JNull => false
  | JBool b => b
  | JNum n => n =? 1
  | JBigInt n => n =? 1
  | JStr _ | JArr _ | JObj _ =>
      match parse_integer_literal (to_string v) with
      | Some n => n =? 1
      | None => false
      end
  end.

(** ** JSON.stringify *)

(** The text produced by [JSON.stringify], kept as the tree it parses to. *)
Inductive Json : Type :=
| JsonNull
| JsonBool (b : bool)
| JsonNum (n : Z)
| JsonStr (s : string)
| JsonArr (elems : list Json)
| JsonObj (members : list (string * Json)).

(** [JSON.stringify(v)].  The result is [None] when JavaScript returns
    [undefined]; a property whose value is [undefined] is left out of its
    object, an [undefined] array element is written [null], and a BigInt
    cannot be serialized. *)
Fixpoint JSON_stringify (v : JsVal) : JsResult (option Json) :=
  match v with
  | JUndefined => Return None
  | JNull => Return (Some JsonNull)
  | JBool b => Return (Some (JsonBool b))
  | JNum n => Return (Some (JsonNum n))
  | JStr s => Return (Some (JsonStr s))
  | JBigInt _ => Throw (TypeError "Do not know how to serialize a BigInt")
  | JArr l =>
      rbind
        ((fix elems (l : list JsVal) : JsResult (list Json) :=
            match l with
            | [] => Return []
            | x :: r =>
                rbind (JSON_stringify x) (fun jx =>
                rbind (elems r) (fun jr =>
                Return (match jx with Some j => j | None => JsonNull end :: jr)))
            end) l)
        (fun js => Return (Some (JsonArr js)))
  | JObj ps =>
      rbind
        ((fix members (ps : list (string * JsVal)) : JsResult (list (string * Json)) :=
            match ps with
            | [] => Return []
            | (k, x) :: r =>
                rbind (JSON_stringify x) (fun jx =>
                rbind (members r) (fun jr =>
                Return (match jx with Some j => (k, j) :: jr | None => jr end)))
            end) ps)
        (fun ms => Return (Some (JsonObj ms)))
  end.

(** Member access on the emitted text. *)
Definition member (k : string) (j : Json) : option Json :=
  match j with
  | JsonObj ms => lookup k ms
  | _ => None
  end.

Definition member_names (j : Json) : list string :=
  match j with
  | JsonObj ms => map fst ms
  | _ => []
  end.

(** ** Requests *)

Inductive BodyLimit : Type := DefaultLimit | Infinity.

(** The config object handed to [axios.request]. *)
Record RequestConfig : Type := mkRequest {
  method : string;
  url : string;
  headers : list (string * string);
  data : option Json;
  maxBodyLength : BodyLimit
}.

Definition base_url : string := "https://avax.api.hyperspace.xyz/rest/".

(** The config literal every operation of both clients writes out. *)
Definition post (endpoint key : string) (body : option Json) : RequestConfig :=
  {| method := "post";
     url := base_url ++ endpoint;
     headers := [("Content-Type", "application/json"); ("Authorization", key)];
     data := body;
     maxBodyLength := DefaultLimit |}.

Definition post_unbounded (endpoint key : string) (body : option Json) : RequestConfig :=
  {| method := "post";
     url := base_url ++ endpoint;
     headers := [("Content-Type", "application/json"); ("Authorization", key)];
     data := body;
     maxBodyLength := Infinity |}.

Definition authorization (c : RequestConfig) : option string :=
  lookup "Authorization" (headers c).

(** ** Collaborators and the monad of async methods *)

(** The calls that leave the SDK.  The provider and the wallet handed to the
    helpers are the ones bound at construction and are left implicit. *)
Inductive Call : Type :=
| GetWavaxBalance (owner : string)
| GetWavaxApprovalStatus (owner : string) (balance : JsVal)
| ApproveWavax
| GetERC721ApprovalStatus (owner : string) (contractAddress : string)
| ApproveErc721 (contractAddress : string)
| AxiosRequest (config : RequestConfig)
| HandleSignTransaction (orderData : JsVal)
| HandleSignAndExecute (tx : JsVal).

Inductive Event : Type :=
| Called (c : Call)
| Logged (text : string) (value : option JsVal)
| LoggedError (e : JsError).

Definition Trace : Type := list Event.

(** The world outside: what each call resolves to (or rejects with), given
    everything that happened before it, and what [JSON.parse] makes of a
    signed payload. *)
Record Env : Type := mkEnv {
  respond : Trace -> Call -> JsResult JsVal;
  JSON_parse : JsVal -> JsResult JsVal
}.

Definition M (A : Type) : Type := Trace -> JsResult A * Trace.

Definition ret {A} (a : A) : M A := fun t => (Return a, t).

Definition throw {A} (e : JsError) : M A := fun t => (Throw e, t).

Definition bind {A B} (m : M A) (k : A -> M B) : M B :=
  fun t =>
    match m t with
    | (Return a, t') => k a t'
    | (Throw e, t') => (Throw e, t')
    end.

Definition lift {A} (r : JsResult A) : M A := fun t => (r, t).

(** [try { body } catch (error) { handler }] *)
Definition try_catch {A} (body : M A) (handler : JsError -> M A) : M A :=
  fun t =>
    match body t with
    | (Return a, t') => (Return a, t')
    | (Throw e, t') => handler e t'
    end.

(** [await f(args)] for a collaborator [f]. *)
Definition call (env : Env) (c : Call) : M JsVal :=
  fun t => (respond env t c, (t ++ [Called c])%list).

(** [console.log(text)], and [console.log(`text${value}`)]. *)
Definition console_log (text : string) (value : option JsVal) : M unit :=
  fun t => (Return tt, (t ++ [Logged text value])%list).

(** [console.log(error)] *)
Definition console_log_error (e : JsError) : M unit :=
  fun t => (Return tt, (t ++ [LoggedError e])%list).

Declare Scope m_scope.
Delimit Scope m_scope with m.
Notation "x <- m ;; k" := (bind m (fun x => k))
  (at level 61, m at next level, right associativity) : m_scope.
Notation "m ;; k" := (bind m (fun _ => k))
  (at level 61, right associativity) : m_scope.

(** Running a method from the empty trace. *)
Definition run {A} (m : M A) : JsResult A * Trace := m [].
Definition outcome {A} (m : M A) : JsResult A := fst (run m).
Definition calls_of (t : Trace) : list Call :=
  flat_map (fun e => match e with Called c => [c] | _ => [] end) t.
Definition calls {A} (m : M A) : list Call := calls_of (snd (run m)).

(** ** The Query Client (src/read.ts) *)

Module Read.

Definition API_KEY : string := "".

(** An optional string parameter: absent is [undefined]. *)
Definition opt_str (o : option string) : JsVal :=
  match o with
  | Some s => JStr s
  | None => JUndefined
  end.

(** An optional [string[]] parameter. *)
Definition opt_strs (o : option (list string)) : JsVal :=
  match o with
  | Some l => JArr (map JStr l)
  | None => JUndefined
  end.

(** [await axios.request(config)] with the body [JSON.stringify(body)]. *)
Definition send (env : Env) (mk : option Json -> RequestConfig) (body : JsVal) : M JsVal :=
  (data <- lift (JSON_stringify body) ;;
   call env (AxiosRequest (mk data)))%m.

Section Operations.
Variable env : Env.

Definition getUserOwnedNFTs_body
    (walletAddress : string) (collection : option string) (pagination : JsVal) : JsVal :=
  if truthy (opt_str collection)
  then JObj [("condition",
              JObj [("owner", JStr walletAddress);
                    ("project_ids", JArr [JObj [("project_id", opt_str collection)]])]);
             ("pagination_info", pagination)]
  else JObj [("condition", JObj [("owner", JStr walletAddress)]);
             ("pagination_info", pagination)].

Definition getUserOwnedNFTs walletAddress collection pagination : M JsVal :=
  send env (post "get-marketplace-snapshots" API_KEY)
       (getUserOwnedNFTs_body walletAddress collection pagination).

Definition getCollectionBids_body (collection : string) (pagination : JsVal) : JsVal :=
  JObj [("condition", JObj [("contract_address", JStr collection)]);
        ("pagination_info", pagination)].

Definition getCollectionBids collection pagination : M JsVal :=
  send env (post "get-collection-bids-for-project" API_KEY)
       (getCollectionBids_body collection pagination).

Definition getUserCollectionBids_body
    (collection walletAddress : string) (pagination : JsVal) : JsVal :=
  JObj [("condition", JObj [("contract_address", JStr collection);
                            ("buyer_address", JStr walletAddress)]);
        ("pagination_info", pagination)].

Definition getUserCollectionBids collection walletAddress pagination : M JsVal :=
  send env (post "get-collection-bids-for-project-and-user" API_KEY)
       (getUserCollectionBids_body collection walletAddress pagination).

Definition getUserListings_body
    (walletAddress : string) (collection : option string) (pagination : JsVal) : JsVal :=
  JObj [("condition",
         JObj [("owner", JStr walletAddress);
               ("project_ids", JArr [JObj [("project_id", opt_str collection)]]);
               ("listing_type", JStr "NORMAL")]);
        ("pagination_info", pagination)].

Definition getUserListings walletAddress collection pagination : M JsVal :=
  send env (post "get-marketplace-snapshot" API_KEY)
       (getUserListings_body walletAddress collection pagination).

Definition getCollectionActivity_body
    (collection : string) (actionTypes : option (list string)) (pagination : JsVal) : JsVal :=
  JObj [("condition",
         JObj [("projects", JArr [JObj [("project_id", JStr collection)]]);
               ("action_types", opt_strs actionTypes)]);
        ("pagination_info", pagination)].

Definition getCollectionActivity collection actionTypes pagination : M JsVal :=
  send env (post_unbounded "get-collection-activity" API_KEY)
       (getCollectionActivity_body collection actionTypes pagination).

Definition getCollectionListings_body
    (collection : string) (orderBy pagination : JsVal) : JsVal :=
  JObj [("condition",
         JObj [("project_ids", JArr [JObj [("project_id", JStr collection)]]);
               ("listing_type", JStr "NORMAL")]);
        ("order_by", orderBy);
        ("pagination_info", pagination)].

Definition getCollectionListings collection orderBy pagination : M JsVal :=
  send env (post "get-collection-view" API_KEY)
       (getCollectionListings_body collection orderBy pagination).

Definition getUserActivity_body
    (walletAddress : string) (actionTypes : option (list string)) (pagination : JsVal) : JsVal :=
  JObj [("condition",
         JObj [("user_address", JStr walletAddress);
               ("action_types", opt_strs actionTypes)]);
        ("pagination_info", pagination)].

Definition getUserActivity walletAddress actionTypes pagination : M JsVal :=
  send env (post_unbounded "get-user-activity" API_KEY)
       (getUserActivity_body walletAddress actionTypes pagination).

Definition getCollectionStats_body
    (collection : option string) (orderBy pagination : JsVal) : JsVal :=
  if truthy (opt_str collection)
  then JObj [("condition", JObj [("project_ids", JArr [opt_str collection])]);
             ("order_by", orderBy);
             ("pagination_info", pagination)]
  else JObj [("order_by", orderBy);
             ("pagination_info", pagination)].

Definition getCollectionStats collection orderBy pagination : M JsVal :=
  send env (post "get-project-stats" API_KEY)
       (getCollectionStats_body collection orderBy pagination).

End Operations.

(** The eight operations, each applied to its arguments. *)
Inductive Query : Type :=
| QUserOwnedNFTs (walletAddress : string) (collection : option string) (pagination : JsVal)
| QCollectionBids (collection : string) (pagination : JsVal)
| QUserCollectionBids (collection walletAddress : string) (pagination : JsVal)
| QUserListings (walletAddress : string) (collection : option string) (pagination : JsVal)
| QCollectionActivity (collection : string) (actionTypes : option (list string))
                      (pagination : JsVal)
| QCollectionListings (collection : string) (orderBy pagination : JsVal)
| QUserActivity (walletAddress : string) (actionTypes : option (list string))
                (pagination : JsVal)
| QCollectionStats (collection : option string) (orderBy pagination : JsVal).

Definition perform (env : Env) (q : Query) : M JsVal :=
  match q with
  | QUserOwnedNFTs w c p => getUserOwnedNFTs env w c p
  | QCollectionBids c p => getCollectionBids env c p
  | QUserCollectionBids c w p => getUserCollectionBids env c w p
  | QUserListings w c p => getUserListings env w c p
  | QCollectionActivity c a p => getCollectionActivity env c a p
  | QCollectionListings c o p => getCollectionListings env c o p
  | QUserActivity w a p => getUserActivity env w a p
  | QCollectionStats c o p => getCollectionStats env c o p
  end.

End Read.

(** ** The Trade Client (src/index.ts) *)

Module Trade.

Record Wallet : Type := mkWallet { address : string }.

(** The fields of an [MPSDK] instance; the provider is kept as its RPC url. *)
Record MPSDK : Type := mkMPSDK {
  wallet : Wallet;
  provider : string;
  apiKey : string
}.

Definition constructor (apiKey : string) (wallet : Wallet) (rpc : string) : MPSDK :=
  {| wallet := wallet; provider := rpc; apiKey := apiKey |}.

(** [res.data?.length && res.data[0].<field>] *)
Definition payload_guard (res : JsVal) (field : string) : JsResult JsVal :=
  (d <~ js_get res "data";
   len <~ js_get_opt d "length";
   if truthy len
   then (d' <~ js_get res "data"; x <~ js_first d'; js_get x field)
   else Return len)%js.

(** [res.data[0].<field>] *)
Definition payload (res : JsVal) (field : string) : JsResult JsVal :=
  (d <~ js_get res "data"; x <~ js_first d; js_get x field)%js.

(** [fees.map((fee) => BigInt(fee.amount))] *)
Definition map_amounts (fees : JsVal) : JsResult (list Z) :=
  match fees with
  | JArr l =>
      (fix each (l : list JsVal) : JsResult (list Z) :=
         match l with
         | [] => Return []
         | fee :: r =>
             (a <~ js_get fee "amount";
              n <~ BigInt a;
              ns <~ each r;
              Return (n :: ns))%js
         end) l
  | JUndefined | JNull =>
      Throw (TypeError ("Cannot read properties of " ++ type_name fees
                        ++ " (reading 'map')"))
  | _ => Throw (TypeError "metadata.event_log.fees.map is not a function")
  end.

(** [xs.reduce((a, b) => a + b)] on an array of BigInts. *)
Definition reduce_add (xs : list Z) : JsResult Z :=
  match xs with
  | [] => Throw (TypeError "Reduce of empty array with no initial value")
  | x :: r => Return (fold_left Z.add r x)
  end.

(** [[BigInt(metadata.event_log.erc20TokenAmount),
      ...metadata.event_log.fees.map((fee) => BigInt(fee.amount))]
      .reduce((a, b) => a + b)] *)
Definition totalAmountToPay (metadata : JsVal) : JsResult Z :=
  (event_log <~ js_get metadata "event_log";
   amount <~ js_get event_log "erc20TokenAmount";
   n <~ BigInt amount;
   event_log' <~ js_get metadata "event_log";
   fees <~ js_get event_log' "fees";
   ns <~ map_amounts fees;
   reduce_add (n :: ns))%js.

(** The three result shapes of the broadcast-path operations. *)
Definition succeeded (hash : JsVal) : JsVal :=
  JObj [("digest", hash); ("errors", JNull)].

Definition failed (msg : string) : JsVal :=
  JObj [("digest", JNull); ("errors", JStr msg)].

Definition failed_to_create (msg : string) : JsVal :=
  JObj [("digest", JNull); ("tokensPurchased", JArr []); ("errors", JStr msg)].

Section Methods.
Variable env : Env.
Variable this : MPSDK.

(** [catch (error) { console.log(error); return { digest: null, errors: error.message } }] *)
Definition report (error : JsError) : M JsVal :=
  (console_log_error error ;;
   ret (failed (message error)))%m.

Definition validateSignature (orderObject : JsVal) : M JsVal :=
  (data <- lift (JSON_stringify (JObj [("order", orderObject)])) ;;
   call env (AxiosRequest (post "validate-signature" (apiKey this) data)))%m.

(** The tail shared by [createCollectionBid] and [listNFT]: sign the
    metadata of the built order and register it, or fall off the end. *)
Definition sign_and_validate (res : JsVal) : M JsVal :=
  (guard <- lift (payload_guard res "metadata") ;;
   if truthy guard
   then
     orderData <- lift (payload res "metadata") ;;
     signed <- call env (HandleSignTransaction orderData) ;;
     transactionBlockBytes <- lift (js_get signed "transactionBlockBytes") ;;
     orderObject <- lift (JSON_parse env transactionBlockBytes) ;;
     isValidRes <- validateSignature orderObject ;;
     ret isValidRes
   else ret JUndefined)%m.

(** The approval pre-check of [createCollectionBid]:
    [getWavaxBalance], [getWavaxApprovalStatus], and [approveWavax] under
    [if (!approved)]. *)
Definition wavax_approval (bidder : string) : M unit :=
  (wavaxBalance <- call env (GetWavaxBalance bidder) ;;
   approved <- call env (GetWavaxApprovalStatus bidder wavaxBalance) ;;
   if negb (truthy approved)
   then
     console_log "Approving marketplace to trade wavax" None ;;
     approveNFTReceipt <- call env ApproveWavax ;;
     hash <- lift (js_get approveNFTReceipt "transactionHash") ;;
     console_log "Approve wavax Transaction Hash: " (Some hash)
   else ret tt)%m.

(** The approval pre-check of [listNFT] and [acceptCollectionBid]:
    [getERC721ApprovalStatus], and [approveErc721] under [if (!approved)]. *)
Definition erc721_approval (owner contractAddress : string) : M unit :=
  (approved <- call env (GetERC721ApprovalStatus owner contractAddress) ;;
   if negb (truthy approved)
   then
     console_log ("Approving marketplace to trade " ++ contractAddress) None ;;
     approveNFTReceipt <- call env (ApproveErc721 contractAddress) ;;
     hash <- lift (js_get approveNFTReceipt "transactionHash") ;;
     console_log "Approve ERC721 Transaction Hash: " (Some hash)
   else ret tt)%m.

Definition createCollectionBid_body (bidder contractAddress : string) (priceInNavax : Z) : JsVal :=
  JObj [("condition",
         JObj [("price", JNum priceInNavax);
               ("buyer_address", JStr bidder);
               ("metadata",
                JObj [("contractAddress", JStr contractAddress);
                      ("price", JStr ("" ++ Z_to_string priceInNavax))])])].

(** [createCollectionBid] up to and including the remote build call. *)
Definition createCollectionBid_build (contractAddress : string) (priceInNavax : Z) : M JsVal :=
  (let bidder := address (wallet this) in
   wavax_approval bidder ;;
   data <- lift (JSON_stringify (createCollectionBid_body bidder contractAddress priceInNavax)) ;;
   call env (AxiosRequest (post "create-collection-bid-tx" (apiKey this) data)))%m.

Definition createCollectionBid (contractAddress : string) (priceInNavax : Z) : M JsVal :=
  (res <- createCollectionBid_build contractAddress priceInNavax ;;
   sign_and_validate res)%m.

Definition listNFT_body (seller contractAddress tokenId : string) (price : Z) : JsVal :=
  let tokenAddress := contractAddress ++ "_" ++ tokenId in
  JObj [("condition",
         JObj [("list_tx_args",
                JArr [JObj [("token_address", JStr tokenAddress);
                            ("seller_address", JStr seller);
                            ("metadata",
                             JObj [("contractAddress", JStr contractAddress);
                                   ("tokenId", JStr tokenId);
                                   ("price", JStr ("" ++ Z_to_string price))])]])])].

(** [listNFT] up to and including the remote build call. *)
Definition listNFT_build (contractAddress tokenId : string) (price : Z) : M JsVal :=
  (let seller := address (wallet this) in
   erc721_approval seller contractAddress ;;
   data <- lift (JSON_stringify (listNFT_body seller contractAddress tokenId price)) ;;
   call env (AxiosRequest (post "create-list-tx" (apiKey this) data)))%m.

Definition listNFT (contractAddress tokenId : string) (price : Z) : M JsVal :=
  (res <- listNFT_build contractAddress tokenId price ;;
   sign_and_validate res)%m.

(** [txReceipt.status == 1 && txReceipt.transactionHash] *)
Definition receipt_guard (txReceipt : JsVal) : JsResult JsVal :=
  (status <~ js_get txReceipt "status";
   if loose_eq_one status
   then js_get txReceipt "transactionHash"
   else Return (JBool false))%js.

(** The end of [buyNft] and [acceptCollectionBid], from the receipt on. *)
Definition settle_checked (txReceipt : JsVal) (msg : string) : M JsVal :=
  (ok <- lift (receipt_guard txReceipt) ;;
   if truthy ok
   then
     hash <- lift (js_get txReceipt "transactionHash") ;;
     ret (succeeded hash)
   else ret (failed msg))%m.

(** The end of [delistNFT] and [cancelCollectionBid], which test
    [txHash.transactionHash] alone. *)
Definition settle_unchecked (txHash : JsVal) (msg : string) : M JsVal :=
  (present <- lift (js_get txHash "transactionHash") ;;
   if truthy present
   then
     hash <- lift (js_get txHash "transactionHash") ;;
     ret (succeeded hash)
   else ret (failed msg))%m.

Definition buyNft_body (buyer contractAddress tokenId : string) (price : Z) (metadata : JsVal)
  : JsVal :=
  let tokenAddress := contractAddress ++ "_" ++ tokenId in
  let buyTxArgs :=
    JArr [JObj [("buyer_address", JStr buyer);
                ("token_address", JStr tokenAddress);
                ("price", JNum price);
                ("metadata", metadata)]] in
  JObj [("condition", JObj [("buy_tx_args", buyTxArgs)])].

(** The [try] block of [buyNft]. *)
Definition buyNft_try (contractAddress tokenId : string) (price : Z) (metadata : JsVal)
  : M JsVal :=
  (let buyer := address (wallet this) in
   data <- lift (JSON_stringify (buyNft_body buyer contractAddress tokenId price metadata)) ;;
   res <- call env (AxiosRequest (post "create-buy-tx" (apiKey this) data)) ;;
   total <- lift (totalAmountToPay metadata) ;;
   guard <- lift (payload_guard res "byte_string") ;;
   if truthy guard
   then
     encodedTransaction <- lift (payload res "byte_string") ;;
     txReceipt <- call env (HandleSignAndExecute
       (JObj [("data", encodedTransaction); ("value", JBigInt total)])) ;;
     settle_checked txReceipt "Failed to sign and execute purchase transaction"
   else ret (failed_to_create "Failed to create buy txn"))%m.

Definition buyNft (contractAddress tokenId : string) (price : Z) (metadata : JsVal) : M JsVal :=
  try_catch (buyNft_try contractAddress tokenId price metadata) report.

Definition acceptCollectionBid_body
    (seller contractAddress tokenId : string) (price : Z) (metadata : JsVal) : JsVal :=
  JObj [("condition",
         JObj [("token_address", JStr (contractAddress ++ "_" ++ tokenId));
               ("price", JNum price);
               ("seller_address", JStr seller);
               ("metadata", metadata)])].

(** The [try] block of [acceptCollectionBid]; the approval pre-check is
    inside it. *)
Definition acceptCollectionBid_try
    (contractAddress tokenId : string) (price : Z) (metadata : JsVal) : M JsVal :=
  (let seller := address (wallet this) in
   erc721_approval seller contractAddress ;;
   data <- lift (JSON_stringify
     (acceptCollectionBid_body seller contractAddress tokenId price metadata)) ;;
   res <- call env (AxiosRequest
     (post "create-accept-collection-bid-tx" (apiKey this) data)) ;;
   guard <- lift (payload_guard res "byte_string") ;;
   if truthy guard
   then
     encodedTransaction <- lift (payload res "byte_string") ;;
     txReceipt <- call env (HandleSignAndExecute (JObj [("data", encodedTransaction)])) ;;
     settle_checked txReceipt "Failed to sign and execute accept collection bid transaction"
   else ret (failed_to_create "Failed to create accept collection bid txn"))%m.

Definition acceptCollectionBid
    (contractAddress tokenId : string) (price : Z) (metadata : JsVal) : M JsVal :=
  try_catch (acceptCollectionBid_try contractAddress tokenId price metadata) report.

Definition delistNFT_body
    (seller contractAddress tokenId : string) (price : Z) (metadata : JsVal) : JsVal :=
  let tokenAddress := contractAddress ++ "_" ++ tokenId in
  JObj [("condition",
         JObj [("delist_tx_args",
                JArr [JObj [("seller_address", JStr seller);
                            ("token_address", JStr tokenAddress);
                            ("price", JNum price);
                            ("metadata", metadata)]])])].

(** The [try] block of [delistNFT]. *)
Definition delistNFT_try
    (contractAddress tokenId : string) (price : Z) (metadata : JsVal) : M JsVal :=
  (let seller := address (wallet this) in
   data <- lift (JSON_stringify
     (delistNFT_body seller contractAddress tokenId price metadata)) ;;
   res <- call env (AxiosRequest (post "create-delist-tx" (apiKey this) data)) ;;
   guard <- lift (payload_guard res "byte_string") ;;
   if truthy guard
   then
     encodedTransaction <- lift (payload res "byte_string") ;;
     txHash <- call env (HandleSignAndExecute (JObj [("data", encodedTransaction)])) ;;
     settle_unchecked txHash "Failed to sign and execute delist transaction"
   else ret (failed "Failed to create delist txn"))%m.

Definition delistNFT
    (contractAddress tokenId : string) (price : Z) (metadata : JsVal) : M JsVal :=
  try_catch (delistNFT_try contractAddress tokenId price metadata) report.

Definition cancelCollectionBid_body (bidder : string) (price : Z) (metadata : JsVal) : JsVal :=
  JObj [("condition",
         JObj [("buyer_address", JStr bidder);
               ("price", JNum price);
               ("metadata", metadata)])].

(** The [try] block of [cancelCollectionBid]. *)
Definition cancelCollectionBid_try (price : Z) (metadata : JsVal) : M JsVal :=
  (let bidder := address (wallet this) in
   data <- lift (JSON_stringify (cancelCollectionBid_body bidder price metadata)) ;;
   res <- call env (AxiosRequest
     (post "create-cancel-collection-bid-tx" (apiKey this) data)) ;;
   guard <- lift (payload_guard res "byte_string") ;;
   if truthy guard
   then
     encodedTransaction <- lift (payload res "byte_string") ;;
     txHash <- call env (HandleSignAndExecute (JObj [("data", encodedTransaction)])) ;;
     settle_unchecked txHash "Failed to sign and execute cancel collection bid transaction"
   else ret (failed "Failed to create cancel collection bid txn"))%m.

Definition cancelCollectionBid (price : Z) (metadata : JsVal) : M JsVal :=
  try_catch (cancelCollectionBid_try price metadata) report.

End Methods.

(** The four broadcast-path operations, each applied to its arguments. *)
Inductive Broadcast : Type :=
| Buy (contractAddress tokenId : string) (price : Z) (metadata : JsVal)
| Accept (contractAddress tokenId : string) (price : Z) (metadata : JsVal)
| Delist (contractAddress tokenId : string) (price : Z) (metadata : JsVal)
| Cancel (price : Z) (metadata : JsVal).

(** The [try] block of an operation, and the operation itself. *)
Definition attempt (env : Env) (this : MPSDK) (op : Broadcast) : M JsVal :=
  match op with
  | Buy c i p m => buyNft_try env this c i p m
  | Accept c i p m => acceptCollectionBid_try env this c i p m
  | Delist c i p m => delistNFT_try env this c i p m
  | Cancel p m => cancelCollectionBid_try env this p m
  end.

Definition perform (env : Env) (this : MPSDK) (op : Broadcast) : M JsVal :=
  match op with
  | Buy c i p m => buyNft env this c i p m
  | Accept c i p m => acceptCollectionBid env this c i p m
  | Delist c i p m => delistNFT env this c i p m
  | Cancel p m => cancelCollectionBid env this p m
  end.

End Trade.

(** ** Scenarios: concrete collaborators for running the methods *)

Module Scenario.

Definition response (body : JsVal) : JsVal :=
  JObj [("status", JNum 200); ("data", body)].

Definition receipt (status : Z) (hash : string) : JsVal :=
  JObj [("status", JNum status); ("transactionHash", JStr hash)].

Definition http_500 : JsError :=
  mkError "AxiosError" "Request failed with status code 500".

Definition rejected : JsError :=
  mkError "Error" "user rejected transaction".

Definition rpc_down : JsError :=
  mkError "Error" "could not detect network".

Definition is_validate (c : RequestConfig) : bool :=
  String.eqb (url c) (base_url ++ "validate-signature").

(** A world that answers by the kind of call alone: [approval] to both
    approval-status checks, [approve] to both approval transactions, [build]
    to every build request, [signed] and [executed] to the two signing
    helpers; the balance is 5 and signature validation answers [true]. *)
Definition world (approval approve build signed executed : JsResult JsVal) : Env :=
  {| respond := fun _ c =>
       match c with
       | GetWavaxBalance _ => Return (JBigInt 5)
       | GetWavaxApprovalStatus _ _ => approval
       | GetERC721ApprovalStatus _ _ => approval
       | ApproveWavax => approve
       | ApproveErc721 _ => approve
       | AxiosRequest c => if is_validate c then Return (response (JBool true)) else build
       | HandleSignTransaction _ => signed
       | HandleSignAndExecute _ => executed
       end;
     JSON_parse := fun text =>
       match text with
       | JStr "{}" => Return (JObj [])
       | _ => Throw (SyntaxError "Unexpected token in JSON")
       end |}.

Definition sdk : Trade.MPSDK :=
  Trade.constructor "key-123" (Trade.mkWallet "0xB0B") "https://rpc.example".

Definition built (field : string) (v : JsVal) : JsResult JsVal :=
  Return (response (JArr [JObj [(field, v)]])).

(** Everything goes well: approved, built, signed, executed with status 1. *)
Definition happy : Env :=
  world (Return (JBool true)) (Return (receipt 1 "0xA9"))
        (built "byte_string" (JStr "0x01"))
        (Return (JObj [("transactionBlockBytes", JStr "{}")]))
        (Return (receipt 1 "0xABC")).

(** The same for the signing path: the build call answers with metadata. *)
Definition happy_order : Env :=
  world (Return (JBool true)) (Return (receipt 1 "0xA9"))
        (built "metadata" (JObj [("maker", JStr "0xB0B")]))
        (Return (JObj [("transactionBlockBytes", JStr "{}")]))
        (Return (receipt 1 "0xABC")).

(** The listing metadata of the spec's example: 1000 plus fees 50 and 25. *)
Definition listing (fees : list string) : JsVal :=
  JObj [("event_log",
         JObj [("erc20TokenAmount", JStr "1000");
               ("fees", JArr (map (fun a => JObj [("amount", JStr a)]) fees))])].

End Scenario.

(** ** Vocabulary of the properties *)

(** Structural induction on values, through arrays and objects. *)
Section JsVal_induction.
Variable P : JsVal -> Prop.
Hypothesis P_undefined : P JUndefined.
Hypothesis P_null : P JNull.
Hypothesis P_bool : forall b, P (JBool b).
Hypothesis P_num : forall n, P (JNum n).
Hypothesis P_bigint : forall n, P (JBigInt n).
Hypothesis P_str : forall s, P (JStr s).
Hypothesis P_arr : forall l, Forall P l -> P (JArr l).
Hypothesis P_obj : forall ps, Forall (fun kv => P (snd kv)) ps -> P (JObj ps).

Fixpoint JsVal_induction (v : JsVal) : P v :=
  match v with
  | JUndefined => P_undefined
  | JNull => P_null
  | JBool b => P_bool b
  | JNum n => P_num n
  | JBigInt n => P_bigint n
  | JStr s => P_str s
  | JArr l =>
      P_arr l ((fix all (l : list JsVal) : Forall P l :=
                  match l with
                  | [] => Forall_nil _
                  | x :: r => Forall_cons x (JsVal_induction x) (all r)
                  end) l)
  | JObj ps =>
      P_obj ps ((fix all (ps : list (string * JsVal)) : Forall (fun kv => P (snd kv)) ps :=
                   match ps with
                   | [] => Forall_nil _
                   | kv :: r => Forall_cons kv (JsVal_induction (snd kv)) (all r)
                   end) ps)
  end.
End JsVal_induction.

(** A result is [loud] when the error it may throw has a message. *)
Definition loud {A} (r : JsResult A) : Prop :=
  forall e, r = Throw e -> message e <> "".

(** The same for a computation, from any trace. *)
Definition mloud {A} (m : M A) : Prop :=
  forall t e t', m t = (Throw e, t') -> message e <> "".

(** Collaborators that reject with an [Error] carrying a message, as axios
    and ethers do. *)
Definition polite (env : Env) : Prop :=
  forall t c e, respond env t c = Throw e -> message e <> "".

(** Kinds of events, for statements about what a run did and did not do. *)
Definition is_approve_tx (ev : Event) : bool :=
  match ev with
  | Called ApproveWavax | Called (ApproveErc721 _) => true
  | _ => false
  end.

Definition is_approval_check (ev : Event) : bool :=
  match ev with
  | Called (GetWavaxApprovalStatus _ _) | Called (GetERC721ApprovalStatus _ _) => true
  | _ => false
  end.

Definition is_approval (ev : Event) : bool :=
  is_approval_check ev || is_approve_tx ev.

Definition is_request (ev : Event) : bool :=
  match ev with
  | Called (AxiosRequest _) => true
  | _ => false
  end.

Definition is_broadcast (ev : Event) : bool :=
  match ev with
  | Called (HandleSignAndExecute _) => true
  | _ => false
  end.

(** Event kinds that a piece of code never produces. *)
Definition never (kind : Event -> bool) (ev : Event) : Prop := kind ev = false.

(** [emits P m]: whatever [m] does, it only appends events, each satisfying [P]. *)
Definition emits (P : Event -> Prop) {A} (m : M A) : Prop :=
  forall t, exists new, snd (m t) = (t ++ new)%list /\ Forall P new.

(** What the approval-status check of a pre-check reports, from trace [t]. *)
Definition erc721_check (env : Env) (owner contractAddress : string) (t : Trace)
  : JsResult JsVal :=
  respond env t (GetERC721ApprovalStatus owner contractAddress).

Definition wavax_check (env : Env) (bidder : string) (t : Trace) : JsResult JsVal :=
  rbind (respond env t (GetWavaxBalance bidder))
        (fun balance => respond env (t ++ [Called (GetWavaxBalance bidder)])%list
                                (GetWavaxApprovalStatus bidder balance)).

(** The discipline of the approval pre-check, on the events [new] of a run:
    after a check that reports approved (or that fails) no approval
    transaction is submitted; after a check that reports not approved, one
    is submitted, before any request to the marketplace. *)
Definition approval_discipline (check : JsResult JsVal) (new : Trace) : Prop :=
  match check with
  | Return approved =>
      if truthy approved
      then Forall (never is_approve_tx) new
      else exists pre tx rest,
          new = (pre ++ tx :: rest)%list /\
          is_approve_tx tx = true /\
          Forall (never is_request) pre /\
          Forall (never is_approve_tx) pre /\
          Forall (never is_approve_tx) rest
  | Throw _ => Forall (never is_approve_tx) new
  end.

(** Decimal integer strings and the numbers they denote, by position. *)
Definition is_digit (c : ascii) : bool :=
  (Nat.leb 48 (nat_of_ascii c) && Nat.leb (nat_of_ascii c) 57)%bool.

Fixpoint all_digits (s : string) : bool :=
  match s with
  | EmptyString => true
  | String c r => is_digit c && all_digits r
  end.

Definition decimal (s : string) : Prop :=
  s <> "" /\ all_digits s = true.

Fixpoint decimal_value (s : string) : Z :=
  match s with
  | EmptyString => 0
  | String c r =>
      (Z.of_nat (nat_of_ascii c) - 48) * 10 ^ Z.of_nat (String.length r) + decimal_value r
  end.

Definition total (xs : list Z) : Z := fold_right Z.add 0 xs.

(** What the signing path of [createCollectionBid] and [listNFT] does with
    the answer [res] of the build call, issued at trace [t1]: with usable
    metadata, once signing, parsing and validation go through, the result is
    the validation response and the order object was sent for validation;
    without, the result is [undefined] and nothing more is called. *)
Definition registers_order (env : Env) (this : Trade.MPSDK) (res : JsVal) (t1 : Trace)
    (result : JsResult JsVal * Trace) : Prop :=
  forall metadata,
    Trade.payload_guard res "metadata" = Return metadata ->
    if truthy metadata
    then
      forall signed bytes order data answer,
        let sign := Called (HandleSignTransaction metadata) in
        let validate :=
          Called (AxiosRequest (post "validate-signature" (Trade.apiKey this) data)) in
        respond env t1 (HandleSignTransaction metadata) = Return signed ->
        js_get signed "transactionBlockBytes" = Return bytes ->
        JSON_parse env bytes = Return order ->
        JSON_stringify (JObj [("order", order)]) = Return data ->
        respond env (t1 ++ [sign])%list
                (AxiosRequest (post "validate-signature" (Trade.apiKey this) data))
        = Return answer ->
        result = (Return answer, (t1 ++ [sign; validate])%list)
    else result = (Return JUndefined, t1).

(** Following a path of member names into the emitted text; the name "0"
    steps into the first element of an array. *)
Fixpoint at_path (path : list string) (j : Json) : option Json :=
  match path with
  | [] => Some j
  | k :: rest =>
      match j with
      | JsonObj ms =>
          match lookup k ms with
          | Some x => at_path rest x
          | None => None
          end
      | JsonArr (x :: _) => if String.eqb k "0" then at_path rest x else None
      | _ => None
      end
  end.

(** The body and the pagination argument of a query. *)
Definition query_body (q : Read.Query) : JsVal :=
  match q with
  | Read.QUserOwnedNFTs w c p => Read.getUserOwnedNFTs_body w c p
  | Read.QCollectionBids c p => Read.getCollectionBids_body c p
  | Read.QUserCollectionBids c w p => Read.getUserCollectionBids_body c w p
  | Read.QUserListings w c p => Read.getUserListings_body w c p
  | Read.QCollectionActivity c a p => Read.getCollectionActivity_body c a p
  | Read.QCollectionListings c o p => Read.getCollectionListings_body c o p
  | Read.QUserActivity w a p => Read.getUserActivity_body w a p
  | Read.QCollectionStats c o p => Read.getCollectionStats_body c o p
  end.

Definition query_pagination (q : Read.Query) : JsVal :=
  match q with
  | Read.QUserOwnedNFTs _ _ p | Read.QCollectionBids _ p
  | Read.QUserCollectionBids _ _ p | Read.QUserListings _ _ p
  | Read.QCollectionActivity _ _ p | Read.QCollectionListings _ _ p
  | Read.QUserActivity _ _ p | Read.QCollectionStats _ _ p => p
  end.

(** The body of a broadcast-path request. *)
Definition broadcast_body (this : Trade.MPSDK) (op : Trade.Broadcast) : JsVal :=
  let me := Trade.address (Trade.wallet this) in
  match op with
  | Trade.Buy c i p m => Trade.buyNft_body me c i p m
  | Trade.Accept c i p m => Trade.acceptCollectionBid_body me c i p m
  | Trade.Delist c i p m => Trade.delistNFT_body me c i p m
  | Trade.Cancel p m => Trade.cancelCollectionBid_body me p m
  end.

Definition is_offline_sign (ev : Event) : bool :=
  match ev with
  | Called (HandleSignTransaction _) => true
  | _ => false
  end.

(** How many events of a kind a trace holds, and computations that add at
    most [n] of them. *)
Definition count (kind : Event -> bool) (t : Trace) : nat :=
  List.length (filter kind t).

Definition bounded (kind : Event -> bool) (n : nat) {A} (m : M A) : Prop :=
  forall t, exists new, snd (m t) = (t ++ new)%list /\ (count kind new <= n)%nat.

(** A request as the Trade Client writes it for the key [key]. *)
Definition keyed (key : string) (ev : Event) : Prop :=
  match ev with
  | Called (AxiosRequest c) =>
      method c = "post" /\
      headers c = [("Content-Type", "application/json"); ("Authorization", key)] /\
      String.prefix base_url (url c) = true
  | _ => True
  end.

(** What a broadcast-path operation does before its build call, the
    endpoint of that call, and whether its payment can be computed. *)
Definition precheck (env : Env) (this : Trade.MPSDK) (op : Trade.Broadcast) : M unit :=
  match op with
  | Trade.Accept c _ _ _ => Trade.erc721_approval env (Trade.address (Trade.wallet this)) c
  | _ => ret tt
  end.

Definition broadcast_endpoint (op : Trade.Broadcast) : string :=
  match op with
  | Trade.Buy _ _ _ _ => "create-buy-tx"
  | Trade.Accept _ _ _ _ => "create-accept-collection-bid-tx"
  | Trade.Delist _ _ _ _ => "create-delist-tx"
  | Trade.Cancel _ _ => "create-cancel-collection-bid-tx"
  end.

Definition payable (op : Trade.Broadcast) : Prop :=
  match op with
  | Trade.Buy _ _ _ metadata => exists n, Trade.totalAmountToPay metadata = Return n
  | _ => True
  end.

(** Whether an operation reads the status of the receipt. *)
Definition checks_status (op : Trade.Broadcast) : bool :=
  match op with
  | Trade.Buy _ _ _ _ | Trade.Accept _ _ _ _ => true
  | Trade.Delist _ _ _ _ | Trade.Cancel _ _ => false
  end.

(** A result [{ digest: null, errors: <msg> }] whose message starts with [start]. *)
Definition reports (start : string) (r : JsVal) : Prop :=
  js_get r "digest" = Return JNull /\
  exists msg, js_get r "errors" = Return (JStr msg) /\ String.prefix start msg = true.

(** The text of an optional string argument that is present. *)
Definition JSON_string_of (o : option string) : Json :=
  match o with
  | Some s => JsonStr s
  | None => JsonNull
  end.

(** The members [JSON.stringify] writes for the properties of an object. *)
Fixpoint stringify_members (ps : list (string * JsVal)) : JsResult (list (string * Json)) :=
  match ps with
  | [] => Return []
  | (k, x) :: r =>
      rbind (JSON_stringify x) (fun jx =>
      rbind (stringify_members r) (fun jr =>
      Return (match jx with Some j => (k, j) :: jr | None => jr end)))
  end.

(** How the signing path of [createCollectionBid] and [listNFT] fails, for
    the answer [res] of the build call issued at trace [t1]: a rejected
    signature, signed bytes that do not parse, and a rejected validation are
    thrown as they are, and the validation request is sent only once the
    bytes have parsed. *)
Definition throws_raw (env : Env) (this : Trade.MPSDK) (res : JsVal) (t1 : Trace)
    (result : JsResult JsVal * Trace) : Prop :=
  forall metadata,
    Trade.payload_guard res "metadata" = Return metadata ->
    truthy metadata = true ->
    let sign := Called (HandleSignTransaction metadata) in
    (forall e,
        respond env t1 (HandleSignTransaction metadata) = Throw e ->
        result = (Throw e, (t1 ++ [sign])%list)) /\
    (forall signed bytes e,
        respond env t1 (HandleSignTransaction metadata) = Return signed ->
        js_get signed "transactionBlockBytes" = Return bytes ->
        JSON_parse env bytes = Throw e ->
        result = (Throw e, (t1 ++ [sign])%list)) /\
    (forall signed bytes order data e,
        let validate :=
          Called (AxiosRequest (post "validate-signature" (Trade.apiKey this) data)) in
        respond env t1 (HandleSignTransaction metadata) = Return signed ->
        js_get signed "transactionBlockBytes" = Return bytes ->
        JSON_parse env bytes = Return order ->
        JSON_stringify (JObj [("order", order)]) = Return data ->
        respond env (t1 ++ [sign])%list
                (AxiosRequest (post "validate-signature" (Trade.apiKey this) data))
        = Throw e ->
        result = (Throw e, (t1 ++ [sign; validate])%list)).

(** Strings without white space. *)
Fixpoint no_space (s : string) : bool :=
  match s with
  | EmptyString => true
  | String c r => negb (is_space c) && no_space r
  end.

(** The transaction a broadcast-path operation hands to
    [handleSignAndExecute] for the encoded bytes [bytes]: [buyNft] adds the
    payment as [value]. *)
Definition broadcast_tx (op : Trade.Broadcast) (bytes : JsVal) : JsVal :=
  match op with
  | Trade.Buy _ _ _ metadata =>
      match Trade.totalAmountToPay metadata with
      | Return total => JObj [("data", bytes); ("value", JBigInt total)]
      | Throw _ => JObj [("data", bytes)]
      end
  | _ => JObj [("data", bytes)]
  end.

(** The three ways the signing path can go, by the guard
    [res.data?.length && res.data[0].metadata]: registered as above when it
    is truthy, [undefined] when it is falsy, and the guard's own error when
    it throws, as it does on a non-empty result whose first element is
    [null] or [undefined]. *)
Definition order_path (env : Env) (this : Trade.MPSDK) (res : JsVal) (t1 : Trace)
    (result : JsResult JsVal * Trace) : Prop :=
  registers_order env this res t1 result /\
  (forall e, Trade.payload_guard res "metadata" = Throw e -> result = (Throw e, t1)) /\
  (forall x rest,
      js_get res "data" = Return (JArr (x :: rest)) ->
      is_nullish x = true ->
      exists e, err_name e = "TypeError" /\ result = (Throw e, t1)).

(** A request to [endpoint], if this event is one, carries a body with
    the property [Q]. *)
Definition build_request_says (endpoint : string) (Q : Json -> Prop) (ev : Event) : Prop :=
  match ev with
  | Called (AxiosRequest c) =>
      url c = base_url ++ endpoint -> exists j, data c = Some j /\ Q j
  | _ => True
  end.

(** The integers a double holds exactly, [Number.MIN_SAFE_INTEGER] to
    [Number.MAX_SAFE_INTEGER]: on these [Z_to_string] is [Number::toString]. *)
Definition safe_integer (n : Z) : Prop :=
  - 9007199254740991 <= n <= 9007199254740991.

(** The values for which [loose_eq_one] is JavaScript's [== 1] as it
    stands: everything but strings and objects, whose comparison goes
    through the full numeric-string grammar. *)
Definition compares_as_primitive (v : JsVal) : bool :=
  match v with
  | JStr _ | JArr _ | JObj _ => false
  | _ => true
  end.

(** * Properties *)

(** ** Sanity checks of the JavaScript primitives *)

Example BigInt_1000 : BigInt (JStr "1000") = Return 1000.
Proof. reflexivity. Qed.

Example BigInt_hex : BigInt (JStr " 0x1F ") = Return 31.
Proof. reflexivity. Qed.

Example BigInt_bad : exists e, BigInt (JStr "12ab") = Throw e.
Proof. eexists. reflexivity. Qed.

Example to_string_array : to_string (JArr [JNum 1; JNull; JStr "a"]) = "1,,a".
Proof. reflexivity. Qed.

Example buy_happy :
  outcome (Trade.buyNft Scenario.happy Scenario.sdk "0xAA" "7" 100
             (Scenario.listing ["50"; "25"]))
  = Return (Trade.succeeded (JStr "0xABC")).
Proof. reflexivity. Qed.

Example list_happy :
  outcome (Trade.listNFT Scenario.happy_order Scenario.sdk "0xAA" "7" 100)
  = Return (Scenario.response (JBool true)).
Proof. reflexivity. Qed.

Example list_token_address :
  exists body,
    calls (Trade.listNFT Scenario.happy Scenario.sdk "0xAA" "7" 100)
    = [GetERC721ApprovalStatus "0xB0B" "0xAA";
       AxiosRequest (post "create-list-tx" "key-123" (Some body))]
    /\ (exists args rest,
          member "condition" body = Some (JsonObj [("list_tx_args", JsonArr (args :: rest))])
          /\ member "token_address" args = Some (JsonStr "0xAA_7")).
Proof. eexists. split; [reflexivity|]. do 2 eexists. split; reflexivity. Qed.

(** ** Errors thrown by the primitives and by the methods *)

Lemma loud_Return {A} (a : A) : loud (Return a).
Proof. intros e H. discriminate. Qed.

Lemma loud_rbind {A B} (r : JsResult A) (k : A -> JsResult B) :
  loud r -> (forall a, loud (k a)) -> loud (rbind r k).
Proof.
  intros Hr Hk e H. destruct r as [a|e0]; simpl in H.
  - now apply (Hk a).
  - inversion H; subst. now apply Hr.
Qed.

Lemma loud_js_get v k : loud (js_get v k).
Proof. intros e H. destruct v; simpl in H; inversion H; subst; simpl; discriminate. Qed.

Lemma loud_js_first v : loud (js_first v).
Proof. intros e H. destruct v; simpl in H; inversion H; subst; simpl; discriminate. Qed.

Lemma loud_js_get_opt v k : loud (js_get_opt v k).
Proof.
  unfold js_get_opt. destruct (is_nullish v); [apply loud_Return | apply loud_js_get].
Qed.

Lemma loud_BigInt v : loud (BigInt v).
Proof.
  intros e H. unfold BigInt in H.
  destruct v; try destruct (parse_integer_literal _);
    inversion H; subst; simpl; discriminate.
Qed.

Lemma loud_JSON_stringify v : loud (JSON_stringify v).
Proof.
  induction v using JsVal_induction; simpl;
    try apply loud_Return; try (intros e E; inversion E; subst; simpl; discriminate).
  - apply loud_rbind; [|intros; apply loud_Return].
    induction H as [|x r Hx _ IH]; [apply loud_Return|].
    apply loud_rbind; [exact Hx|]. intros jx.
    apply loud_rbind; [exact IH|]. intros; apply loud_Return.
  - apply loud_rbind; [|intros; apply loud_Return].
    induction H as [|[k x] r Hx _ IH]; [apply loud_Return|].
    apply loud_rbind; [exact Hx|]. intros jx.
    apply loud_rbind; [exact IH|]. intros; apply loud_Return.
Qed.

Lemma loud_payload_guard res field : loud (Trade.payload_guard res field).
Proof.
  unfold Trade.payload_guard.
  apply loud_rbind; [apply loud_js_get|]. intros d.
  apply loud_rbind; [apply loud_js_get_opt|]. intros len.
  destruct (truthy len); [|apply loud_Return].
  apply loud_rbind; [apply loud_js_get|]. intros d'.
  apply loud_rbind; [apply loud_js_first|]. intros x. apply loud_js_get.
Qed.

Lemma loud_payload res field : loud (Trade.payload res field).
Proof.
  unfold Trade.payload.
  apply loud_rbind; [apply loud_js_get|]. intros d.
  apply loud_rbind; [apply loud_js_first|]. intros x. apply loud_js_get.
Qed.

Lemma loud_map_amounts fees : loud (Trade.map_amounts fees).
Proof.
  destruct fees; simpl; try (intros e E; inversion E; subst; simpl; discriminate).
  induction elems as [|fee r IH]; [apply loud_Return|].
  apply loud_rbind; [apply loud_js_get|]. intros a.
  apply loud_rbind; [apply loud_BigInt|]. intros n.
  apply loud_rbind; [exact IH|]. intros; apply loud_Return.
Qed.

Lemma loud_totalAmountToPay metadata : loud (Trade.totalAmountToPay metadata).
Proof.
  unfold Trade.totalAmountToPay.
  apply loud_rbind; [apply loud_js_get|]. intros event_log.
  apply loud_rbind; [apply loud_js_get|]. intros amount.
  apply loud_rbind; [apply loud_BigInt|]. intros n.
  apply loud_rbind; [apply loud_js_get|]. intros event_log'.
  apply loud_rbind; [apply loud_js_get|]. intros fees.
  apply loud_rbind; [apply loud_map_amounts|]. intros ns.
  apply loud_Return.
Qed.

Lemma loud_receipt_guard r : loud (Trade.receipt_guard r).
Proof.
  unfold Trade.receipt_guard.
  apply loud_rbind; [apply loud_js_get|]. intros status.
  destruct (loose_eq_one status); [apply loud_js_get | apply loud_Return].
Qed.

Lemma mloud_ret {A} (a : A) : mloud (ret a).
Proof. intros t e t' H. discriminate. Qed.

Lemma mloud_lift {A} (r : JsResult A) : loud r -> mloud (lift r).
Proof. intros Hr t e t' H. inversion H; subst. now apply Hr. Qed.

Lemma mloud_bind {A B} (m : M A) (k : A -> M B) :
  mloud m -> (forall a, mloud (k a)) -> mloud (bind m k).
Proof.
  intros Hm Hk t e t' H. unfold bind in H.
  destruct (m t) as [[a|e0] t1] eqn:E.
  - exact (Hk a _ _ _ H).
  - inversion H; subst. exact (Hm _ _ _ E).
Qed.

Lemma mloud_call env c : polite env -> mloud (call env c).
Proof. intros Hp t e t' H. inversion H; subst. eapply Hp; eauto. Qed.

Lemma mloud_console_log text v : mloud (console_log text v).
Proof. intros t e t' H. discriminate. Qed.

Create HintDb loud.

#[local] Hint Resolve loud_Return loud_js_get loud_js_first loud_js_get_opt loud_BigInt
  loud_JSON_stringify loud_payload_guard loud_payload loud_map_amounts
  loud_totalAmountToPay loud_receipt_guard : loud.
#[local] Hint Resolve mloud_ret mloud_lift mloud_call mloud_console_log : loud.

(** Peel one bind (or branch) off a goal [mloud _]. *)
Ltac mloud_step :=
  match goal with
  | |- mloud (bind _ _) => apply mloud_bind; [|intros]
  | |- mloud (if ?b then _ else _) => destruct b
  | |- mloud _ => solve [auto with loud]
  end.

Lemma mloud_settle_checked r msg : mloud (Trade.settle_checked r msg).
Proof. unfold Trade.settle_checked. repeat mloud_step. Qed.

Lemma mloud_settle_unchecked r msg : mloud (Trade.settle_unchecked r msg).
Proof. unfold Trade.settle_unchecked. repeat mloud_step. Qed.

Lemma mloud_erc721_approval env owner c :
  polite env -> mloud (Trade.erc721_approval env owner c).
Proof. intros Hp. unfold Trade.erc721_approval. repeat mloud_step. Qed.

#[local] Hint Resolve mloud_settle_checked mloud_settle_unchecked mloud_erc721_approval : loud.

Lemma mloud_attempt env this op : polite env -> mloud (Trade.attempt env this op).
Proof.
  intros Hp. destruct op; simpl;
    unfold Trade.buyNft_try, Trade.acceptCollectionBid_try,
           Trade.delistNFT_try, Trade.cancelCollectionBid_try;
    repeat mloud_step.
Qed.

(** What [try]/[catch] with the handler [report] makes of a run. *)
Lemma try_report_returns (body : M JsVal) t :
  exists r t', try_catch body Trade.report t = (Return r, t').
Proof.
  unfold try_catch. destruct (body t) as [[a|e] t1]; [eauto|].
  unfold Trade.report, bind, console_log_error, ret. eauto.
Qed.

Lemma try_report_caught (body : M JsVal) t e t' :
  body t = (Throw e, t') ->
  try_catch body Trade.report t
  = (Return (Trade.failed (message e)), (t' ++ [LoggedError e])%list).
Proof. intros H. unfold try_catch. rewrite H. reflexivity. Qed.

Lemma perform_is_try env this op :
  Trade.perform env this op = try_catch (Trade.attempt env this op) Trade.report.
Proof. destruct op; reflexivity. Qed.

(** ** C1: failures of the transactional phase are reported, not thrown *)

Lemma polite_world approval approve build signed executed :
  loud approval -> loud approve -> loud build -> loud signed -> loud executed ->
  polite (Scenario.world approval approve build signed executed).
Proof.
  intros Ha Hp Hb Hs Hx t c e H.
  destruct c; simpl in H; try discriminate; auto.
  destruct (Scenario.is_validate config); [discriminate | auto].
Qed.

Lemma loud_Throw {A} e : message e <> "" -> loud (@Throw A e).
Proof. intros H e' E. now inversion E; subst. Qed.

(** When the guard [res.data?.length && res.data[0].f] is truthy, it is the
    value of [res.data[0].f]. *)
Lemma payload_of_guard res f g :
  Trade.payload_guard res f = Return g -> truthy g = true ->
  Trade.payload res f = Return g.
Proof.
  unfold Trade.payload_guard, Trade.payload. intros H Hg.
  destruct (js_get res "data") as [d|e]; [|discriminate]. cbn [rbind] in *.
  destruct (js_get_opt d "length") as [len|e]; [|discriminate]. cbn [rbind] in *.
  destruct (truthy len) eqn:E; [exact H|].
  inversion H; subst. congruence.
Qed.

(** The two failures the specification names, on [delistNFT]: the remote
    build call is rejected, or signing and broadcasting is. *)
Lemma delistNFT_build_rejected env this c i p m t data e :
  JSON_stringify (Trade.delistNFT_body (Trade.address (Trade.wallet this)) c i p m)
  = Return data ->
  respond env t (AxiosRequest (post "create-delist-tx" (Trade.apiKey this) data))
  = Throw e ->
  Trade.delistNFT env this c i p m t
  = (Return (Trade.failed (message e)),
     (t ++ [Called (AxiosRequest (post "create-delist-tx" (Trade.apiKey this) data));
            LoggedError e])%list).
Proof.
  intros Hd Hr. unfold Trade.delistNFT.
  rewrite (try_report_caught _ t e
             (t ++ [Called (AxiosRequest
                      (post "create-delist-tx" (Trade.apiKey this) data))])%list).
  - now rewrite <- List.app_assoc.
  - unfold Trade.delistNFT_try, bind, lift, call. cbn zeta. now rewrite Hd, Hr.
Qed.

Lemma delistNFT_signing_rejected env this c i p m t data res bytes e :
  let build := Called (AxiosRequest (post "create-delist-tx" (Trade.apiKey this) data)) in
  JSON_stringify (Trade.delistNFT_body (Trade.address (Trade.wallet this)) c i p m)
  = Return data ->
  respond env t (AxiosRequest (post "create-delist-tx" (Trade.apiKey this) data))
  = Return res ->
  Trade.payload_guard res "byte_string" = Return bytes ->
  truthy bytes = true ->
  respond env (t ++ [build])%list (HandleSignAndExecute (JObj [("data", bytes)]))
  = Throw e ->
  Trade.delistNFT env this c i p m t
  = (Return (Trade.failed (message e)),
     (t ++ [build; Called (HandleSignAndExecute (JObj [("data", bytes)]));
            LoggedError e])%list).
Proof.
  intros build Hd Hr Hg Ht He. unfold Trade.delistNFT.
  pose proof (payload_of_guard _ _ _ Hg Ht) as Hp.
  rewrite (try_report_caught _ t e
             (t ++ [build; Called (HandleSignAndExecute (JObj [("data", bytes)]))])%list).
  - now rewrite <- List.app_assoc.
  - unfold Trade.delistNFT_try, bind, lift, call. cbn zeta.
    rewrite Hd, Hr, Hg, Ht, Hp. fold build. rewrite He.
    now rewrite <- List.app_assoc.
Qed.

(** Unfolding an operation up to the answer of its build call. *)
Ltac run_to_build Hpre Hdata Hres :=
  unfold Trade.buyNft, Trade.acceptCollectionBid, Trade.delistNFT,
         Trade.cancelCollectionBid, try_catch,
         Trade.buyNft_try, Trade.acceptCollectionBid_try, Trade.delistNFT_try,
         Trade.cancelCollectionBid_try, bind, lift;
  cbn zeta; unfold call at 1;
  try rewrite Hpre; rewrite Hdata, Hres.

(** C1, as the code has it. Each of [buyNft], [acceptCollectionBid],
    [delistNFT] and [cancelCollectionBid] always returns and never throws.
    When the remote build call is rejected with an error [e], and when
    signing and broadcasting is rejected with [e], the operation returns
    [{ digest: null, errors: e.message }], having done nothing after the
    failed call but log the error; the same holds for any other error thrown
    inside the [try] block.  [errors] is the message of the error as it is:
    the empty string if the error carries none. *)
Theorem broadcast_failures_are_reported env this op t :
  let build data :=
    Called (AxiosRequest (post (broadcast_endpoint op) (Trade.apiKey this) data)) in
  let reported (e : JsError) :=
    Return (JObj [("digest", JNull); ("errors", JStr (message e))]) in
  (exists r t', Trade.perform env this op t = (Return r, t')) /\
  (forall t0 data e,
      precheck env this op t = (Return tt, t0) ->
      JSON_stringify (broadcast_body this op) = Return data ->
      respond env t0 (AxiosRequest (post (broadcast_endpoint op) (Trade.apiKey this) data))
      = Throw e ->
      Trade.perform env this op t
      = (reported e, (t0 ++ [build data; LoggedError e])%list)) /\
  (forall t0 data res bytes e,
      precheck env this op t = (Return tt, t0) ->
      JSON_stringify (broadcast_body this op) = Return data ->
      respond env t0 (AxiosRequest (post (broadcast_endpoint op) (Trade.apiKey this) data))
      = Return res ->
      payable op ->
      Trade.payload_guard res "byte_string" = Return bytes ->
      truthy bytes = true ->
      respond env (t0 ++ [build data])%list (HandleSignAndExecute (broadcast_tx op bytes))
      = Throw e ->
      Trade.perform env this op t
      = (reported e,
         (t0 ++ [build data; Called (HandleSignAndExecute (broadcast_tx op bytes));
                 LoggedError e])%list)) /\
  (forall e t',
      Trade.attempt env this op t = (Throw e, t') ->
      Trade.perform env this op t = (reported e, (t' ++ [LoggedError e])%list)).
Proof.
  intros build reported. subst build reported. cbv beta.
  split; [|split; [|split]].
  - rewrite perform_is_try. apply try_report_returns.
  - intros t0 data e Hpre Hdata Hres.
    destruct op;
      cbn [broadcast_body broadcast_endpoint precheck Trade.perform]
        in Hpre, Hdata, Hres |- *;
      try (inversion Hpre; subst t0);
      run_to_build Hpre Hdata Hres; cbn; now rewrite <- List.app_assoc.
  - intros t0 data res bytes e Hpre Hdata Hres Hpay Hguard Htrue Hexec.
    pose proof (payload_of_guard _ _ _ Hguard Htrue) as Hbytes.
    destruct op;
      cbn [broadcast_body broadcast_endpoint precheck payable broadcast_tx Trade.perform]
        in Hpre, Hdata, Hres, Hpay, Hexec |- *.
    + destruct Hpay as (n & Hn). rewrite Hn in Hexec. inversion Hpre; subst t0.
      run_to_build Hpre Hdata Hres. rewrite Hn, Hguard, Htrue, Hbytes.
      unfold call. rewrite Hexec. cbn. now rewrite <- !List.app_assoc.
    + run_to_build Hpre Hdata Hres. rewrite Hguard, Htrue, Hbytes.
      unfold call. rewrite Hexec. cbn. now rewrite <- !List.app_assoc.
    + inversion Hpre; subst t0.
      run_to_build Hpre Hdata Hres. rewrite Hguard, Htrue, Hbytes.
      unfold call. rewrite Hexec. cbn. now rewrite <- !List.app_assoc.
    + inversion Hpre; subst t0.
      run_to_build Hpre Hdata Hres. rewrite Hguard, Htrue, Hbytes.
      unfold call. rewrite Hexec. cbn. now rewrite <- !List.app_assoc.
  - intros e t' H. rewrite perform_is_try. now apply try_report_caught.
Qed.

(** The remote build call answers 500 to [acceptCollectionBid]; the wallet
    refuses to sign the purchase of [buyNft]. *)
Lemma broadcast_failures_are_reported_witness :
  let down := Scenario.world (Return (JBool true)) (Return JNull)
                (Throw Scenario.http_500) (Return JNull) (Return JNull) in
  let refused := Scenario.world (Return (JBool true)) (Return JNull)
                   (Scenario.built "byte_string" (JStr "0x01")) (Return JNull)
                   (Throw Scenario.rejected) in
  outcome (Trade.acceptCollectionBid down Scenario.sdk "0xAA" "7" 100 JNull)
  = Return (Trade.failed "Request failed with status code 500") /\
  outcome (Trade.buyNft refused Scenario.sdk "0xAA" "7" 100 (Scenario.listing ["50"; "25"]))
  = Return (Trade.failed "user rejected transaction") /\
  calls (Trade.buyNft refused Scenario.sdk "0xAA" "7" 100 (Scenario.listing ["50"; "25"]))
  = [AxiosRequest (post "create-buy-tx" "key-123"
       (Some (JsonObj [("condition",
          JsonObj [("buy_tx_args",
            JsonArr [JsonObj [("buyer_address", JsonStr "0xB0B");
                              ("token_address", JsonStr "0xAA_7");
                              ("price", JsonNum 100);
                              ("metadata",
                               JsonObj [("event_log",
                                 JsonObj [("erc20TokenAmount", JsonStr "1000");
                                          ("fees",
                                           JsonArr [JsonObj [("amount", JsonStr "50")];
                                                    JsonObj [("amount", JsonStr "25")]])])])]])])])));
     HandleSignAndExecute (JObj [("data", JStr "0x01"); ("value", JBigInt 1075)])].
Proof.
  intros down refused. unfold outcome, calls, run.
  destruct (broadcast_failures_are_reported down Scenario.sdk
              (Trade.Accept "0xAA" "7" 100 JNull) []) as (_ & Hbuild & _).
  specialize (Hbuild _ _ Scenario.http_500 eq_refl eq_refl eq_refl).
  destruct (broadcast_failures_are_reported refused Scenario.sdk
              (Trade.Buy "0xAA" "7" 100 (Scenario.listing ["50"; "25"])) [])
    as (_ & _ & Hsign & _).
  specialize (Hsign [] _ _ (JStr "0x01") Scenario.rejected eq_refl eq_refl eq_refl
                (ex_intro _ 1075 eq_refl) eq_refl eq_refl eq_refl).
  cbn [Trade.perform] in Hbuild, Hsign. rewrite Hbuild, Hsign.
  split; [reflexivity|]. split; reflexivity.
Defined.

(** The claim as stated fails where the error carries no message: the build
    call of [delistNFT] is rejected with [new Error()], and [errors] is the
    empty string. *)
Lemma broadcast_failure_without_message :
  let env := Scenario.world (Return (JBool true)) (Return JNull)
               (Throw (mkError "Error" "")) (Return JNull) (Return JNull) in
  respond env [] (AxiosRequest (post "create-delist-tx" "key-123"
    (Some (JsonObj [("condition",
       JsonObj [("delist_tx_args",
         JsonArr [JsonObj [("seller_address", JsonStr "0xB0B");
                           ("token_address", JsonStr "0xAA_7");
                           ("price", JsonNum 100);
                           ("metadata", JsonNull)]])])]))))
  = Throw (mkError "Error" "") /\
  outcome (Trade.delistNFT env Scenario.sdk "0xAA" "7" 100 JNull)
  = Return (JObj [("digest", JNull); ("errors", JStr "")]) /\
  ~ (exists msg, msg <> "" /\
       outcome (Trade.delistNFT env Scenario.sdk "0xAA" "7" 100 JNull)
       = Return (JObj [("digest", JNull); ("errors", JStr msg)])).
Proof.
  intros env. split; [reflexivity|]. split; [reflexivity|].
  intros (msg & Hne & H). vm_compute in H. inversion H. congruence.
Qed.

(** ** C2: errors of the approval pre-check *)

Lemma bind_throws {A B} (m : M A) (k : A -> M B) t e t' :
  m t = (Throw e, t') -> bind m k t = (Throw e, t').
Proof. intros H. unfold bind. now rewrite H. Qed.

Lemma bind_returns {A B} (m : M A) (k : A -> M B) t a t' :
  m t = (Return a, t') -> bind m k t = k a t'.
Proof. intros H. unfold bind. now rewrite H. Qed.

(** A rejected status check, or a rejected approval transaction, is an error
    of the pre-check. *)
Lemma erc721_check_rejected env owner c t e :
  respond env t (GetERC721ApprovalStatus owner c) = Throw e ->
  Trade.erc721_approval env owner c t
  = (Throw e, (t ++ [Called (GetERC721ApprovalStatus owner c)])%list).
Proof. intros H. unfold Trade.erc721_approval, bind, call. now rewrite H. Qed.

Lemma erc721_approve_rejected env owner c t a e :
  respond env t (GetERC721ApprovalStatus owner c) = Return a ->
  truthy a = false ->
  respond env (t ++ [Called (GetERC721ApprovalStatus owner c);
                     Logged (String.append "Approving marketplace to trade " c) None])%list
          (ApproveErc721 c) = Throw e ->
  exists t', Trade.erc721_approval env owner c t = (Throw e, t').
Proof.
  intros H Ha He. unfold Trade.erc721_approval, bind, call, console_log.
  rewrite H, Ha. simpl in He |- *. rewrite <- List.app_assoc. simpl.
  rewrite He. eauto.
Qed.

Lemma wavax_check_rejected env bidder t b e :
  respond env t (GetWavaxBalance bidder) = Return b ->
  respond env (t ++ [Called (GetWavaxBalance bidder)])%list (GetWavaxApprovalStatus bidder b)
  = Throw e ->
  exists t', Trade.wavax_approval env bidder t = (Throw e, t').
Proof.
  intros Hb H. unfold Trade.wavax_approval, bind, call. rewrite Hb, H. eauto.
Qed.

Lemma wavax_approve_rejected env bidder t b a e :
  respond env t (GetWavaxBalance bidder) = Return b ->
  respond env (t ++ [Called (GetWavaxBalance bidder)])%list (GetWavaxApprovalStatus bidder b)
  = Return a ->
  truthy a = false ->
  respond env (t ++ [Called (GetWavaxBalance bidder);
                     Called (GetWavaxApprovalStatus bidder b);
                     Logged "Approving marketplace to trade wavax" None])%list
          ApproveWavax = Throw e ->
  exists t', Trade.wavax_approval env bidder t = (Throw e, t').
Proof.
  intros Hb H Ha He. unfold Trade.wavax_approval, bind, call, console_log.
  rewrite Hb, H, Ha. simpl. rewrite <- !List.app_assoc. simpl. rewrite He. eauto.
Qed.

(** C2, as the code has it. An error thrown by the approval pre-check of
    [createCollectionBid] or of [listNFT] reaches the caller as thrown; in
    [acceptCollectionBid] the pre-check runs inside the [try] block, so the
    same error is caught and comes back as
    [{ digest: null, errors: e.message }]. *)
Theorem approval_errors env this :
  (forall c p t e t',
      Trade.wavax_approval env (Trade.address (Trade.wallet this)) t = (Throw e, t') ->
      Trade.createCollectionBid env this c p t = (Throw e, t')) /\
  (forall c i p t e t',
      Trade.erc721_approval env (Trade.address (Trade.wallet this)) c t = (Throw e, t') ->
      Trade.listNFT env this c i p t = (Throw e, t')) /\
  (forall c i p m t e t',
      Trade.erc721_approval env (Trade.address (Trade.wallet this)) c t = (Throw e, t') ->
      Trade.acceptCollectionBid env this c i p m t
      = (Return (JObj [("digest", JNull); ("errors", JStr (message e))]),
         (t' ++ [LoggedError e])%list)).
Proof.
  repeat split.
  - intros c p t e t' H.
    unfold Trade.createCollectionBid, Trade.createCollectionBid_build.
    apply bind_throws. simpl. now apply bind_throws.
  - intros c i p t e t' H.
    unfold Trade.listNFT, Trade.listNFT_build.
    apply bind_throws. simpl. now apply bind_throws.
  - intros c i p m t e t' H.
    unfold Trade.acceptCollectionBid. apply try_report_caught.
    unfold Trade.acceptCollectionBid_try. simpl. now apply bind_throws.
Qed.

(** The status check cannot reach the node: [listNFT] throws that error,
    [acceptCollectionBid] returns it. *)
Lemma approval_errors_witness :
  let env := Scenario.world (Throw Scenario.rpc_down) (Return JNull)
               (Return JNull) (Return JNull) (Return JNull) in
  outcome (Trade.createCollectionBid env Scenario.sdk "0xAA" 100)
  = Throw Scenario.rpc_down /\
  outcome (Trade.listNFT env Scenario.sdk "0xAA" "7" 100) = Throw Scenario.rpc_down /\
  outcome (Trade.acceptCollectionBid env Scenario.sdk "0xAA" "7" 100 JNull)
  = Return (Trade.failed "could not detect network").
Proof.
  intros env.
  destruct (approval_errors env Scenario.sdk) as (Hc & Hl & Ha).
  unfold outcome, run. split; [|split].
  - rewrite (Hc "0xAA" 100 [] Scenario.rpc_down _ eq_refl). reflexivity.
  - rewrite (Hl "0xAA" "7" 100 [] Scenario.rpc_down _ eq_refl). reflexivity.
  - rewrite (Ha "0xAA" "7" 100 JNull [] Scenario.rpc_down _ eq_refl). reflexivity.
Defined.

(** The claim as stated fails for [acceptCollectionBid]: a rejected status
    check does not propagate, it is turned into a result. *)
Lemma accept_masks_approval_error :
  let env := Scenario.world (Throw Scenario.rpc_down) (Return JNull)
               (Return JNull) (Return JNull) (Return JNull) in
  respond env [] (GetERC721ApprovalStatus "0xB0B" "0xAA") = Throw Scenario.rpc_down /\
  outcome (Trade.acceptCollectionBid env Scenario.sdk "0xAA" "7" 100 JNull)
  = Return (JObj [("digest", JNull); ("errors", JStr "could not detect network")]) /\
  outcome (Trade.acceptCollectionBid env Scenario.sdk "0xAA" "7" 100 JNull)
  <> Throw Scenario.rpc_down.
Proof.
  intros env. split; [reflexivity|]. split; [reflexivity|].
  intros H. vm_compute in H. discriminate.
Qed.

(** ** Events of a run *)

Lemma emits_ret P {A} (a : A) : emits P (ret a).
Proof. intros t. exists []. simpl. now rewrite List.app_nil_r. Qed.

Lemma emits_lift P {A} (r : JsResult A) : emits P (lift r).
Proof. intros t. exists []. simpl. now rewrite List.app_nil_r. Qed.

Lemma emits_call (P : Event -> Prop) env c : P (Called c) -> emits P (call env c).
Proof. intros H t. exists [Called c]. simpl. auto. Qed.

Lemma emits_console_log (P : Event -> Prop) text v :
  P (Logged text v) -> emits P (console_log text v).
Proof. intros H t. exists [Logged text v]. simpl. auto. Qed.

Lemma emits_bind P {A B} (m : M A) (k : A -> M B) :
  emits P m -> (forall a, emits P (k a)) -> emits P (bind m k).
Proof.
  intros Hm Hk t. unfold bind.
  destruct (Hm t) as (n1 & E1 & F1).
  destruct (m t) as [[a|e] t1]; simpl in E1; subst t1.
  - destruct (Hk a (t ++ n1)%list) as (n2 & E2 & F2).
    exists (n1 ++ n2)%list. rewrite E2, List.app_assoc. split; [reflexivity|].
    apply Forall_app; auto.
  - exists n1. auto.
Qed.

Lemma emits_try_catch P {A} (body : M A) (handler : JsError -> M A) :
  emits P body -> (forall e, emits P (handler e)) -> emits P (try_catch body handler).
Proof.
  intros Hb Hh t. unfold try_catch.
  destruct (Hb t) as (n1 & E1 & F1).
  destruct (body t) as [[a|e] t1]; simpl in E1; subst t1.
  - exists n1. auto.
  - destruct (Hh e (t ++ n1)%list) as (n2 & E2 & F2).
    exists (n1 ++ n2)%list. rewrite E2, List.app_assoc. split; [reflexivity|].
    apply Forall_app; auto.
Qed.

Lemma emits_report (P : Event -> Prop) e :
  P (LoggedError e) -> emits P (Trade.report e).
Proof. intros H t. exists [LoggedError e]. simpl. auto. Qed.

(** Peel one construct off a goal [emits (never kind) _]. *)
Ltac emits_step :=
  match goal with
  | |- emits _ (bind _ _) => apply emits_bind; [|intros]
  | |- emits _ (try_catch _ _) => apply emits_try_catch; [|intros]
  | |- emits _ (if ?b then _ else _) => destruct b
  | |- emits _ (call _ _) => apply emits_call; reflexivity
  | |- emits _ (console_log _ _) => apply emits_console_log; reflexivity
  | |- emits _ (Trade.report _) => apply emits_report; reflexivity
  | |- emits _ (lift _) => apply emits_lift
  | |- emits _ (ret _) => apply emits_ret
  end.

Lemma validateSignature_no_approve env this o :
  emits (never is_approve_tx) (Trade.validateSignature env this o).
Proof. unfold Trade.validateSignature. repeat emits_step. Qed.

Lemma sign_and_validate_no_approve env this res :
  emits (never is_approve_tx) (Trade.sign_and_validate env this res).
Proof.
  unfold Trade.sign_and_validate. repeat emits_step.
  apply validateSignature_no_approve.
Qed.

Lemma settle_checked_emits P r msg : emits P (Trade.settle_checked r msg).
Proof. unfold Trade.settle_checked. repeat emits_step. Qed.

Lemma settle_unchecked_emits P r msg : emits P (Trade.settle_unchecked r msg).
Proof. unfold Trade.settle_unchecked. repeat emits_step. Qed.

(** The events of [m ;; k] are those of [m] followed by those of [k]. *)
Lemma bind_events P {A B} (m : M A) (k : A -> M B) t n1 :
  snd (m t) = (t ++ n1)%list ->
  (forall a, emits P (k a)) ->
  exists n2, snd (bind m k t) = (t ++ n1 ++ n2)%list /\ Forall P n2.
Proof.
  intros E1 Hk. unfold bind.
  destruct (m t) as [[a|e] t1]; simpl in E1; subst t1.
  - destruct (Hk a (t ++ n1)%list) as (n2 & E2 & F2).
    exists n2. now rewrite E2, List.app_assoc.
  - exists []. now rewrite List.app_nil_r.
Qed.

Lemma approval_discipline_more check n1 n2 :
  approval_discipline check n1 ->
  Forall (never is_approve_tx) n2 ->
  approval_discipline check (n1 ++ n2)%list.
Proof.
  unfold approval_discipline. intros H F.
  destruct check as [a|e]; [destruct (truthy a)|].
  - apply Forall_app; auto.
  - destruct H as (pre & tx & rest & E & Htx & Hp1 & Hp2 & Hr).
    exists pre, tx, (rest ++ n2)%list. subst n1.
    rewrite <- List.app_assoc. simpl. repeat split; auto. apply Forall_app; auto.
  - apply Forall_app; auto.
Qed.

(** ** C9: the approval transaction is submitted only when needed *)

Lemma erc721_approval_discipline env owner c t :
  exists new,
    snd (Trade.erc721_approval env owner c t) = (t ++ new)%list /\
    approval_discipline (erc721_check env owner c t) new.
Proof.
  unfold Trade.erc721_approval, erc721_check, approval_discipline, bind, call, console_log.
  destruct (respond env t (GetERC721ApprovalStatus owner c)) as [a|e].
  - destruct (truthy a); cbn [negb].
    + cbn. eexists; (split; [reflexivity|]). repeat constructor.
    + cbn. rewrite <- !List.app_assoc. cbn [app].
      match goal with
      | |- context [respond env ?t' (ApproveErc721 c)] =>
          destruct (respond env t' (ApproveErc721 c)) as [r|e]
      end.
      * destruct (js_get r "transactionHash") as [h|e]; cbn;
          rewrite <- ?List.app_assoc; cbn [app]; eexists; (split; [reflexivity|]);
          eexists [_; _], _, _; (split; [reflexivity|]); repeat split; repeat constructor.
      * cbn. eexists; (split; [reflexivity|]).
        eexists [_; _], _, []; (split; [reflexivity|]); repeat split; repeat constructor.
  - cbn. eexists; (split; [reflexivity|]). repeat constructor.
Qed.

Lemma wavax_approval_discipline env bidder t :
  exists new,
    snd (Trade.wavax_approval env bidder t) = (t ++ new)%list /\
    approval_discipline (wavax_check env bidder t) new.
Proof.
  unfold Trade.wavax_approval, wavax_check, approval_discipline, bind, call, console_log.
  destruct (respond env t (GetWavaxBalance bidder)) as [b|e]; cbn [rbind].
  - destruct (respond env _ (GetWavaxApprovalStatus bidder b)) as [a|e].
    + destruct (truthy a); cbn [negb].
      * cbn. rewrite <- !List.app_assoc. cbn [app].
        eexists; (split; [reflexivity|]). repeat constructor.
      * cbn. rewrite <- !List.app_assoc. cbn [app].
        match goal with
        | |- context [respond env ?t' ApproveWavax] =>
            destruct (respond env t' ApproveWavax) as [r|e]
        end.
        -- destruct (js_get r "transactionHash") as [h|e]; cbn;
             rewrite <- ?List.app_assoc; cbn [app]; eexists; (split; [reflexivity|]);
             eexists [_; _; _], _, _; (split; [reflexivity|]);
             repeat split; repeat constructor.
        -- cbn. eexists; (split; [reflexivity|]).
           eexists [_; _; _], _, []; (split; [reflexivity|]);
           repeat split; repeat constructor.
    + cbn. rewrite <- !List.app_assoc. cbn [app].
      eexists; (split; [reflexivity|]). repeat constructor.
  - cbn. eexists; (split; [reflexivity|]). repeat constructor.
Qed.

(** Everything after the pre-check submits no approval transaction. *)
Lemma after_precheck_no_approve {A B} (stage : M A) (rest : A -> M B) check t :
  (exists new, snd (stage t) = (t ++ new)%list /\ approval_discipline check new) ->
  (forall a, emits (never is_approve_tx) (rest a)) ->
  exists new, snd (bind stage rest t) = (t ++ new)%list /\ approval_discipline check new.
Proof.
  intros (n1 & E1 & D1) Hrest.
  destruct (bind_events _ stage rest t n1 E1 Hrest) as (n2 & E2 & F2).
  exists (n1 ++ n2)%list. split; [exact E2|]. now apply approval_discipline_more.
Qed.

(** C9. In [createCollectionBid], [listNFT] and [acceptCollectionBid]: if
    the approval-status check reports approved, the run submits no approval
    transaction at all (so none before the build call); if it reports not
    approved, the approval transaction is submitted before any request to
    the marketplace is issued; if the check itself fails, none is
    submitted. *)
Theorem approval_only_when_needed env this :
  let owner := Trade.address (Trade.wallet this) in
  (forall c p t, exists new,
      snd (Trade.createCollectionBid env this c p t) = (t ++ new)%list /\
      approval_discipline (wavax_check env owner t) new) /\
  (forall c i p t, exists new,
      snd (Trade.listNFT env this c i p t) = (t ++ new)%list /\
      approval_discipline (erc721_check env owner c t) new) /\
  (forall c i p m t, exists new,
      snd (Trade.acceptCollectionBid env this c i p m t) = (t ++ new)%list /\
      approval_discipline (erc721_check env owner c t) new).
Proof.
  intros owner. split; [|split].
  - intros c p t.
    unfold Trade.createCollectionBid, Trade.createCollectionBid_build. cbn zeta.
    (* the pre-check is the head of a left-nested bind *)
    assert (H : exists new,
               snd (bind (Trade.wavax_approval env owner)
                      (fun _ =>
                         bind (lift (JSON_stringify
                                 (Trade.createCollectionBid_body owner c p)))
                           (fun data =>
                              call env (AxiosRequest
                                (post "create-collection-bid-tx" (Trade.apiKey this) data)))) t)
               = (t ++ new)%list /\ approval_discipline (wavax_check env owner t) new).
    { apply after_precheck_no_approve.
      - apply wavax_approval_discipline.
      - intros _. repeat emits_step. }
    destruct H as (n1 & E1 & D1).
    destruct (bind_events (never is_approve_tx) _
                (Trade.sign_and_validate env this) t n1 E1
                (sign_and_validate_no_approve env this)) as (n2 & E2 & F2).
    exists (n1 ++ n2)%list. split; [exact E2|]. now apply approval_discipline_more.
  - intros c i p t.
    unfold Trade.listNFT, Trade.listNFT_build. cbn zeta.
    assert (H : exists new,
               snd (bind (Trade.erc721_approval env owner c)
                      (fun _ =>
                         bind (lift (JSON_stringify (Trade.listNFT_body owner c i p)))
                           (fun data =>
                              call env (AxiosRequest
                                (post "create-list-tx" (Trade.apiKey this) data)))) t)
               = (t ++ new)%list /\ approval_discipline (erc721_check env owner c t) new).
    { apply after_precheck_no_approve.
      - apply erc721_approval_discipline.
      - intros _. repeat emits_step. }
    destruct H as (n1 & E1 & D1).
    destruct (bind_events (never is_approve_tx) _
                (Trade.sign_and_validate env this) t n1 E1
                (sign_and_validate_no_approve env this)) as (n2 & E2 & F2).
    exists (n1 ++ n2)%list. split; [exact E2|]. now apply approval_discipline_more.
  - intros c i p m t.
    unfold Trade.acceptCollectionBid, try_catch.
    assert (H : exists new,
               snd (Trade.acceptCollectionBid_try env this c i p m t) = (t ++ new)%list /\
               approval_discipline (erc721_check env owner c t) new).
    { unfold Trade.acceptCollectionBid_try. cbn zeta.
      apply after_precheck_no_approve.
      - apply erc721_approval_discipline.
      - intros _. repeat emits_step. apply settle_checked_emits. }
    destruct H as (n1 & E1 & D1).
    destruct (Trade.acceptCollectionBid_try env this c i p m t) as [[r|e] t1];
      simpl in E1; subst t1.
    + exists n1. auto.
    + exists (n1 ++ [LoggedError e])%list. split.
      * simpl. now rewrite List.app_assoc.
      * apply approval_discipline_more; auto. repeat constructor.
Qed.

Example bid_when_approved :
  calls (Trade.createCollectionBid Scenario.happy Scenario.sdk "0xAA" 100)
  = [GetWavaxBalance "0xB0B";
     GetWavaxApprovalStatus "0xB0B" (JBigInt 5);
     AxiosRequest (post "create-collection-bid-tx" "key-123"
       (Some (JsonObj [("condition",
          JsonObj [("price", JsonNum 100); ("buyer_address", JsonStr "0xB0B");
                   ("metadata", JsonObj [("contractAddress", JsonStr "0xAA");
                                         ("price", JsonStr "100")])])])))].
Proof. reflexivity. Qed.

Example bid_when_not_approved :
  let env := Scenario.world (Return (JBool false)) (Return (Scenario.receipt 1 "0xA9"))
               (Scenario.built "byte_string" (JStr "0x01")) (Return JNull) (Return JNull) in
  map is_approve_tx (snd (run (Trade.createCollectionBid env Scenario.sdk "0xAA" 100)))
  = [false; false; false; true; false; false].
Proof. reflexivity. Qed.

(** ** C5: [delistNFT] has no approval pre-check *)

(** A [try] block that opens with a call records that call first. *)
Lemma call_first P env c (k : JsVal -> M JsVal) (h : JsError -> M JsVal) t :
  (forall a, emits P (k a)) -> (forall e, emits P (h e)) ->
  exists rest,
    snd (try_catch (bind (call env c) k) h t) = (t ++ Called c :: rest)%list /\
    Forall P rest.
Proof.
  intros Hk Hh. unfold try_catch, bind, call.
  destruct (respond env t c) as [a|e].
  - destruct (Hk a (t ++ [Called c])%list) as (n & E & F).
    destruct (k a (t ++ [Called c])%list) as [[r|e] t1]; simpl in E; subst t1.
    + exists n. rewrite <- List.app_assoc. auto.
    + destruct (Hh e ((t ++ [Called c]) ++ n)%list) as (n' & E' & F').
      exists (n ++ n')%list. rewrite E', <- !List.app_assoc. split; [reflexivity|].
      apply Forall_app; auto.
  - destruct (Hh e (t ++ [Called c])%list) as (n' & E' & F').
    exists n'. rewrite E', <- List.app_assoc. auto.
Qed.

(** C5, as the code has it. [delistNFT] queries no approval state and
    submits no approval transaction: when the request body serializes, the
    first thing it does is the remote build call to create-delist-tx, and
    nothing it does afterwards concerns approval. *)
Theorem delistNFT_has_no_precheck env this c i p m t :
  exists new,
    snd (Trade.delistNFT env this c i p m t) = (t ++ new)%list /\
    Forall (never is_approval) new /\
    match JSON_stringify
            (Trade.delistNFT_body (Trade.address (Trade.wallet this)) c i p m) with
    | Return data =>
        exists rest,
          new = Called (AxiosRequest (post "create-delist-tx" (Trade.apiKey this) data))
                :: rest
    | Throw e => new = [LoggedError e]
    end.
Proof.
  unfold Trade.delistNFT, Trade.delistNFT_try. cbn zeta.
  destruct (JSON_stringify _) as [data|e] eqn:E.
  - match goal with
    | |- context [try_catch (bind (lift _) ?k1) ?h t] =>
        assert (R : try_catch (bind (lift (Return data)) k1) h t
                    = try_catch (k1 data) h t) by reflexivity
    end.
    rewrite R. clear R. cbv beta.
    match goal with
    | |- context [try_catch (bind (call env ?c) ?k) ?h t] =>
        destruct (call_first (never is_approval) env c k h t) as (rest & Er & Fr)
    end.
    + intros res. repeat emits_step. apply settle_unchecked_emits.
    + intros e. emits_step.
    + exists (Called (AxiosRequest (post "create-delist-tx" (Trade.apiKey this) data))
              :: rest).
      split; [exact Er|]. split; [|eauto]. constructor; [reflexivity | exact Fr].
  - exists [LoggedError e]. split; [reflexivity|]. split; [|reflexivity].
    repeat constructor.
Qed.

(** The claim as stated fails: the wallet has not approved the marketplace,
    and [delistNFT] builds and broadcasts without asking. *)
Lemma delistNFT_broadcasts_unchecked :
  let env := Scenario.world (Return (JBool false)) (Return (Scenario.receipt 1 "0xA9"))
               (Scenario.built "byte_string" (JStr "0x01")) (Return JNull)
               (Return (Scenario.receipt 1 "0xABC")) in
  erc721_check env "0xB0B" "0xAA" [] = Return (JBool false) /\
  calls (Trade.delistNFT env Scenario.sdk "0xAA" "7" 100 JNull)
  = [AxiosRequest (post "create-delist-tx" "key-123"
       (Some (JsonObj [("condition",
          JsonObj [("delist_tx_args",
            JsonArr [JsonObj [("seller_address", JsonStr "0xB0B");
                              ("token_address", JsonStr "0xAA_7");
                              ("price", JsonNum 100);
                              ("metadata", JsonNull)]])])])));
     HandleSignAndExecute (JObj [("data", JStr "0x01")])] /\
  outcome (Trade.delistNFT env Scenario.sdk "0xAA" "7" 100 JNull)
  = Return (Trade.succeeded (JStr "0xABC")).
Proof. intros env. repeat split. Qed.

(** ** C3: the receipt decides the result *)

Lemma settle_checked_spec r s h msg t :
  js_get r "status" = Return s ->
  js_get r "transactionHash" = Return h ->
  Trade.settle_checked r msg t
  = (Return (if loose_eq_one s && truthy h then Trade.succeeded h else Trade.failed msg), t).
Proof.
  intros Hs Hh. unfold Trade.settle_checked, Trade.receipt_guard, bind, lift.
  rewrite Hs. simpl. destruct (loose_eq_one s); simpl.
  - rewrite Hh. destruct (truthy h); reflexivity.
  - reflexivity.
Qed.

(** [delistNFT] and [cancelCollectionBid] never read the status. *)
Lemma settle_unchecked_spec r h msg t :
  js_get r "transactionHash" = Return h ->
  Trade.settle_unchecked r msg t
  = (Return (if truthy h then Trade.succeeded h else Trade.failed msg), t).
Proof.
  intros Hh. unfold Trade.settle_unchecked, bind, lift.
  rewrite Hh. destruct (truthy h); reflexivity.
Qed.

(** C3 at a reverted transaction. The receipt has status 0 and a hash:
    [buyNft] and [acceptCollectionBid] return the failure result, while
    [delistNFT] and [cancelCollectionBid] return
    [{ digest: <hash>, errors: null }]. *)
Theorem reverted_receipt_results :
  let env := Scenario.world (Return (JBool true)) (Return (Scenario.receipt 1 "0xA9"))
               (Scenario.built "byte_string" (JStr "0x01")) (Return JNull)
               (Return (Scenario.receipt 0 "0xABC")) in
  let metadata := Scenario.listing ["50"; "25"] in
  outcome (Trade.buyNft env Scenario.sdk "0xAA" "7" 100 metadata)
  = Return (JObj [("digest", JNull);
                  ("errors", JStr "Failed to sign and execute purchase transaction")]) /\
  outcome (Trade.acceptCollectionBid env Scenario.sdk "0xAA" "7" 100 metadata)
  = Return (JObj [("digest", JNull);
                  ("errors",
                   JStr "Failed to sign and execute accept collection bid transaction")]) /\
  outcome (Trade.delistNFT env Scenario.sdk "0xAA" "7" 100 metadata)
  = Return (JObj [("digest", JStr "0xABC"); ("errors", JNull)]) /\
  outcome (Trade.cancelCollectionBid env Scenario.sdk 100 metadata)
  = Return (JObj [("digest", JStr "0xABC"); ("errors", JNull)]).
Proof. intros env metadata. repeat split. Qed.

(** ** C10: [buyNft] on metadata without an event log, or without fees *)

Lemma totalAmountToPay_no_event_log metadata :
  js_get metadata "event_log" = Return JUndefined ->
  exists e, Trade.totalAmountToPay metadata = Throw e.
Proof. intros H. unfold Trade.totalAmountToPay. rewrite H. simpl. eauto. Qed.

Lemma totalAmountToPay_no_fees metadata event_log amount n :
  js_get metadata "event_log" = Return event_log ->
  js_get event_log "erc20TokenAmount" = Return amount ->
  BigInt amount = Return n ->
  js_get event_log "fees" = Return (JArr []) ->
  Trade.totalAmountToPay metadata = Return n.
Proof.
  intros H1 H2 H3 H4. unfold Trade.totalAmountToPay.
  rewrite H1; simpl. rewrite H2; simpl. rewrite H3; simpl. rewrite H4. reflexivity.
Qed.

(** C10, as the code has it. When [metadata.event_log] is missing, [buyNft]
    returns [{ digest: null, errors: <string> }] and broadcasts nothing,
    whatever the remote build call answered.  An empty [fees] array is not
    an error: the sum is then [BigInt(erc20TokenAmount)] alone. *)
Theorem buyNft_without_event_log env this c i p metadata t :
  (js_get metadata "event_log" = Return JUndefined ->
   exists msg new,
     Trade.buyNft env this c i p metadata t
     = (Return (JObj [("digest", JNull); ("errors", JStr msg)]), (t ++ new)%list) /\
     Forall (never is_broadcast) new) /\
  (forall event_log amount n,
      js_get metadata "event_log" = Return event_log ->
      js_get event_log "erc20TokenAmount" = Return amount ->
      BigInt amount = Return n ->
      js_get event_log "fees" = Return (JArr []) ->
      Trade.totalAmountToPay metadata = Return n).
Proof.
  split; [|apply totalAmountToPay_no_fees].
  intros H. destruct (totalAmountToPay_no_event_log metadata H) as (e0 & E0).
  unfold Trade.buyNft, try_catch, Trade.buyNft_try, bind, lift, call. cbn zeta.
  destruct (JSON_stringify _) as [data|e].
  - destruct (respond env t _) as [res|e].
    + rewrite E0. cbn. rewrite <- List.app_assoc. do 2 eexists.
      split; [reflexivity|]. repeat constructor.
    + cbn. rewrite <- List.app_assoc. do 2 eexists.
      split; [reflexivity|]. repeat constructor.
  - cbn. do 2 eexists. split; [reflexivity|]. repeat constructor.
Qed.

(** A listing without [event_log], against a build call that succeeds; and
    the listing of 1000 without fees. *)
Lemma buyNft_without_event_log_witness :
  (exists msg new,
      Trade.buyNft Scenario.happy Scenario.sdk "0xAA" "7" 100
        (JObj [("price", JNum 100)]) []
      = (Return (Trade.failed msg), new) /\
      Forall (never is_broadcast) new) /\
  Trade.totalAmountToPay (Scenario.listing []) = Return 1000.
Proof.
  split.
  - destruct (buyNft_without_event_log Scenario.happy Scenario.sdk "0xAA" "7" 100
                (JObj [("price", JNum 100)]) []) as [H _].
    destruct (H eq_refl) as (msg & new & E & F).
    exists msg, new. split; [exact E | exact F].
  - destruct (buyNft_without_event_log Scenario.happy Scenario.sdk "0xAA" "7" 100
                (Scenario.listing []) []) as [_ H].
    exact (H _ (JStr "1000") 1000 eq_refl eq_refl eq_refl eq_refl).
Defined.

(** The claim as stated fails for an empty [fees] array: the payment is the
    listed amount and the purchase is signed and broadcast. *)
Lemma buyNft_with_no_fees_broadcasts :
  Trade.totalAmountToPay (Scenario.listing []) = Return 1000 /\
  calls (Trade.buyNft Scenario.happy Scenario.sdk "0xAA" "7" 100 (Scenario.listing []))
  = [AxiosRequest (post "create-buy-tx" "key-123"
       (Some (JsonObj [("condition",
          JsonObj [("buy_tx_args",
            JsonArr [JsonObj [("buyer_address", JsonStr "0xB0B");
                              ("token_address", JsonStr "0xAA_7");
                              ("price", JsonNum 100);
                              ("metadata",
                               JsonObj [("event_log",
                                 JsonObj [("erc20TokenAmount", JsonStr "1000");
                                          ("fees", JsonArr [])])])]])])])));
     HandleSignAndExecute (JObj [("data", JStr "0x01"); ("value", JBigInt 1000)])] /\
  outcome (Trade.buyNft Scenario.happy Scenario.sdk "0xAA" "7" 100 (Scenario.listing []))
  = Return (JObj [("digest", JStr "0xABC"); ("errors", JNull)]).
Proof. repeat split. Qed.

(** ** C4: the value sent with a purchase *)

Lemma is_digit_not_space c : is_digit c = true -> is_space c = false.
Proof.
  unfold is_digit, is_space. intros H.
  apply andb_true_iff in H as [H1 H2].
  apply Nat.leb_le in H1, H2.
  destruct (Nat.eqb_spec (nat_of_ascii c) 32) as [E|_]; [lia|].
  destruct (Nat.leb_spec 9 (nat_of_ascii c)), (Nat.leb_spec (nat_of_ascii c) 13);
    simpl; try reflexivity; lia.
Qed.

Lemma trim_left_digits s : all_digits s = true -> trim_left s = s.
Proof.
  destruct s as [|c r]; [reflexivity|]. simpl. intros H.
  apply andb_true_iff in H as [H _]. now rewrite (is_digit_not_space c H).
Qed.

Lemma all_digits_rev s acc :
  all_digits (rev_string s acc) = (all_digits s && all_digits acc)%bool.
Proof.
  revert acc. induction s as [|c r IH]; intros acc; simpl; [reflexivity|].
  rewrite IH. simpl. destruct (is_digit c), (all_digits r); reflexivity.
Qed.

Lemma rev_string_rev s acc acc' :
  rev_string (rev_string s acc) acc' = rev_string acc (s ++ acc').
Proof.
  revert acc. induction s as [|c r IH]; intros acc; simpl; [reflexivity|].
  now rewrite IH.
Qed.

Lemma append_empty s : s ++ "" = s.
Proof. induction s as [|c r IH]; simpl; [reflexivity | now rewrite IH]. Qed.

Lemma trim_digits s : all_digits s = true -> trim s = s.
Proof.
  intros H. unfold trim. rewrite (trim_left_digits s H).
  rewrite trim_left_digits.
  - rewrite rev_string_rev. simpl. apply append_empty.
  - rewrite all_digits_rev, H. reflexivity.
Qed.

Lemma digit_value_decimal c :
  is_digit c = true -> digit_value 10 c = Some (Z.of_nat (nat_of_ascii c) - 48).
Proof.
  unfold is_digit, digit_value. intros H.
  apply andb_true_iff in H as [H1 H2]. apply Nat.leb_le in H1, H2.
  replace (48 <=? Z.of_nat (nat_of_ascii c)) with true by (symmetry; apply Z.leb_le; lia).
  replace (Z.of_nat (nat_of_ascii c) <=? 57) with true by (symmetry; apply Z.leb_le; lia).
  simpl.
  replace (Z.of_nat (nat_of_ascii c) - 48 <? 10) with true by (symmetry; apply Z.ltb_lt; lia).
  reflexivity.
Qed.

(** The left-to-right accumulation computes the positional value. *)
Lemma digits_value_decimal s acc :
  all_digits s = true ->
  digits_value 10 acc s = Some (acc * 10 ^ Z.of_nat (String.length s) + decimal_value s).
Proof.
  revert acc. induction s as [|c r IH]; intros acc H;
    cbn [all_digits digits_value decimal_value String.length] in *.
  - f_equal. cbn. lia.
  - apply andb_true_iff in H as [Hc Hr].
    rewrite (digit_value_decimal c Hc), (IH _ Hr).
    f_equal. rewrite Nat2Z.inj_succ, Z.pow_succ_r by lia. ring.
Qed.

Lemma digit_is_not c c' : is_digit c = true -> is_digit c' = false -> Ascii.eqb c c' = false.
Proof.
  intros H H'. destruct (Ascii.eqb_spec c c') as [E|_]; [|reflexivity].
  subst. congruence.
Qed.

Lemma radix_prefix_digits s : all_digits s = true -> radix_prefix s = None.
Proof.
  destruct s as [|c0 [|c1 r]]; try reflexivity. simpl. intros H.
  apply andb_true_iff in H as [_ H]. apply andb_true_iff in H as [H1 _].
  rewrite !(digit_is_not c1) by (exact H1 || reflexivity).
  simpl. now destruct (Ascii.eqb c0 "0").
Qed.

Lemma parse_integer_literal_decimal s :
  decimal s -> parse_integer_literal s = Some (decimal_value s).
Proof.
  intros [Hne Hd]. unfold parse_integer_literal. rewrite (trim_digits s Hd).
  destruct s as [|c r]; [congruence|].
  assert (Hc : is_digit c = true) by (simpl in Hd; now apply andb_true_iff in Hd).
  rewrite !(digit_is_not c) by (exact Hc || reflexivity).
  rewrite (radix_prefix_digits _ Hd).
  unfold nonempty_digits. rewrite (digits_value_decimal _ 0 Hd). f_equal.
Qed.

Lemma BigInt_decimal s : decimal s -> BigInt (JStr s) = Return (decimal_value s).
Proof.
  intros H. unfold BigInt. simpl to_string.
  now rewrite (parse_integer_literal_decimal s H).
Qed.

#[local] Arguments BigInt : simpl never.

Lemma map_amounts_decimal fees amounts :
  Forall2 (fun fee a => js_get fee "amount" = Return (JStr a)) fees amounts ->
  Forall decimal amounts ->
  Trade.map_amounts (JArr fees) = Return (map decimal_value amounts).
Proof.
  simpl. induction 1 as [|fee a fees amounts Hfee _ IH]; intros Hd; [reflexivity|].
  inversion Hd as [|? ? Ha Hrest]; subst.
  rewrite Hfee. simpl. rewrite (BigInt_decimal a Ha). simpl.
  rewrite (IH Hrest). reflexivity.
Qed.

Lemma reduce_add_total n ns : Trade.reduce_add (n :: ns) = Return (n + total ns).
Proof.
  simpl. f_equal. revert n. induction ns as [|m ns IH]; intros n; simpl.
  - lia.
  - rewrite IH. unfold total. simpl. lia.
Qed.

Lemma totalAmountToPay_decimal metadata event_log amount fees amounts :
  js_get metadata "event_log" = Return event_log ->
  js_get event_log "erc20TokenAmount" = Return (JStr amount) ->
  js_get event_log "fees" = Return (JArr fees) ->
  Forall2 (fun fee a => js_get fee "amount" = Return (JStr a)) fees amounts ->
  Forall decimal (amount :: amounts) ->
  Trade.totalAmountToPay metadata
  = Return (decimal_value amount + total (map decimal_value amounts)).
Proof.
  intros H1 H2 H3 H4 H5. inversion H5 as [|? ? Ha Hrest]; subst.
  unfold Trade.totalAmountToPay.
  rewrite H1. cbn [rbind]. rewrite H2. cbn [rbind].
  rewrite (BigInt_decimal amount Ha). cbn [rbind]. rewrite H3. cbn [rbind].
  rewrite (map_amounts_decimal fees amounts H4 Hrest). cbn [rbind].
  apply reduce_add_total.
Qed.

(** C4. When [metadata.event_log.erc20TokenAmount] and the [amount] of
    every entry of [metadata.event_log.fees] are decimal integer strings, and
    the remote build call answers with a [byte_string], [buyNft] signs and
    broadcasts a transaction whose [value] is the BigInt equal to the exact
    integer sum of the listed amount and all fee amounts. *)
Theorem buyNft_value_is_exact_sum
    env this c i p metadata event_log amount fees amounts data res bytes t :
  js_get metadata "event_log" = Return event_log ->
  js_get event_log "erc20TokenAmount" = Return (JStr amount) ->
  js_get event_log "fees" = Return (JArr fees) ->
  Forall2 (fun fee a => js_get fee "amount" = Return (JStr a)) fees amounts ->
  Forall decimal (amount :: amounts) ->
  JSON_stringify (Trade.buyNft_body (Trade.address (Trade.wallet this)) c i p metadata)
  = Return data ->
  respond env t (AxiosRequest (post "create-buy-tx" (Trade.apiKey this) data))
  = Return res ->
  Trade.payload_guard res "byte_string" = Return bytes ->
  truthy bytes = true ->
  exists rest,
    snd (Trade.buyNft env this c i p metadata t)
    = (t ++ Called (AxiosRequest (post "create-buy-tx" (Trade.apiKey this) data))
         :: Called (HandleSignAndExecute
              (JObj [("data", bytes);
                     ("value",
                      JBigInt (decimal_value amount + total (map decimal_value amounts)))]))
         :: rest)%list.
Proof.
  intros H1 H2 H3 H4 H5 Hdata Hres Hguard Htruthy.
  pose proof (totalAmountToPay_decimal _ _ _ _ _ H1 H2 H3 H4 H5) as Htotal.
  pose proof (payload_of_guard _ _ _ Hguard Htruthy) as Hpayload.
  unfold Trade.buyNft, try_catch, Trade.buyNft_try, bind, lift, call. cbn zeta.
  rewrite Hdata, Hres, Htotal, Hguard, Htruthy, Hpayload.
  match goal with
  | |- context [respond env ?t' (HandleSignAndExecute ?tx)] =>
      destruct (respond env t' (HandleSignAndExecute tx)) as [r|e]
  end.
  - match goal with
    | |- context [Trade.settle_checked r ?msg ?t'] =>
        destruct (settle_checked_emits (fun _ => True) r msg t') as (n & E & _);
        destruct (Trade.settle_checked r msg t') as [[v|e] t3]; simpl in E; subst t3
    end.
    + exists n. simpl. now rewrite <- !List.app_assoc.
    + exists (n ++ [LoggedError e])%list. simpl. now rewrite <- !List.app_assoc.
  - exists [LoggedError e]. simpl. now rewrite <- !List.app_assoc.
Qed.

(** The example of the specification: 1000 with fees 50 and 25 is 1075. *)
Lemma buyNft_value_is_exact_sum_witness :
  exists data rest,
    snd (run (Trade.buyNft Scenario.happy Scenario.sdk "0xAA" "7" 100
                (Scenario.listing ["50"; "25"])))
    = Called (AxiosRequest (post "create-buy-tx" "key-123" data))
      :: Called (HandleSignAndExecute
                   (JObj [("data", JStr "0x01"); ("value", JBigInt 1075)]))
      :: rest.
Proof.
  assert (D : Forall decimal ["1000"; "50"; "25"]).
  { repeat constructor; discriminate. }
  assert (F : Forall2 (fun fee a => js_get fee "amount" = Return (JStr a))
                [JObj [("amount", JStr "50")]; JObj [("amount", JStr "25")]]
                ["50"; "25"]).
  { repeat constructor. }
  destruct (buyNft_value_is_exact_sum Scenario.happy Scenario.sdk "0xAA" "7" 100
              (Scenario.listing ["50"; "25"]) _ "1000" _ ["50"; "25"] _ _ (JStr "0x01") []
              eq_refl eq_refl eq_refl F D eq_refl eq_refl eq_refl eq_refl) as (rest & E).
  do 2 eexists. exact E.
Defined.

(** Amounts beyond the range where doubles are exact add up exactly. *)
Example buyNft_large_amounts :
  Trade.totalAmountToPay
    (JObj [("event_log",
            JObj [("erc20TokenAmount", JStr "9007199254740993");
                  ("fees", JArr [JObj [("amount", JStr "100000000000000000000000001")]])])])
  = Return 100000000009007199254740994.
Proof. reflexivity. Qed.

(** ** C8: signed orders are registered *)

Lemma sign_and_validate_registers env this res t1 :
  registers_order env this res t1 (Trade.sign_and_validate env this res t1).
Proof.
  intros metadata Hguard. unfold Trade.sign_and_validate, bind, lift.
  rewrite Hguard. destruct (truthy metadata) eqn:Ht; [|reflexivity].
  intros signed bytes order data answer Hs Hb Ho Hd Ha.
  rewrite (payload_of_guard _ _ _ Hguard Ht).
  unfold call at 1. rewrite Hs, Hb, Ho.
  unfold Trade.validateSignature, bind, lift, call, ret. rewrite Hd, Ha.
  now rewrite <- List.app_assoc.
Qed.

Lemma payload_guard_of_null res field x rest :
  js_get res "data" = Return (JArr (x :: rest)) ->
  is_nullish x = true ->
  exists e, Trade.payload_guard res field = Throw e /\ err_name e = "TypeError".
Proof.
  intros Hd Hx. unfold Trade.payload_guard. rewrite Hd. cbn.
  destruct x; try discriminate; cbn; eexists; split; reflexivity.
Qed.

Lemma sign_and_validate_order_path env this res t1 :
  order_path env this res t1 (Trade.sign_and_validate env this res t1).
Proof.
  split; [apply sign_and_validate_registers|].
  assert (T : forall e, Trade.payload_guard res "metadata" = Throw e ->
                        Trade.sign_and_validate env this res t1 = (Throw e, t1)).
  { intros e He. unfold Trade.sign_and_validate, bind, lift. now rewrite He. }
  split; [exact T|].
  intros x rest Hd Hx.
  destruct (payload_guard_of_null res "metadata" x rest Hd Hx) as (e & He & Hn).
  exists e. split; [exact Hn | exact (T e He)].
Qed.

(** C8, as the code has it. In [createCollectionBid] and in [listNFT],
    once the approval pre-check has passed and the remote build call has
    answered [res]: if [res.data?.length && res.data[0].metadata] is truthy
    (a non-empty result whose first element has metadata), the operation
    signs that metadata, parses the signed bytes into an order object, posts
    [{ order }] to validate-signature and returns the validation response; if
    it is falsy (no result, an empty one, a first element without metadata),
    the operation returns [undefined] and calls nothing more; if the result
    is non-empty and its first element is [null] or [undefined], the
    operation throws the TypeError of reading [metadata] from it. *)
Theorem signed_orders_are_registered env this t t0 res :
  let me := Trade.address (Trade.wallet this) in
  (forall c p data,
      let build := AxiosRequest
                     (post "create-collection-bid-tx" (Trade.apiKey this) data) in
      Trade.wavax_approval env me t = (Return tt, t0) ->
      JSON_stringify (Trade.createCollectionBid_body me c p) = Return data ->
      respond env t0 build = Return res ->
      order_path env this res (t0 ++ [Called build])%list
                 (Trade.createCollectionBid env this c p t)) /\
  (forall c i p data,
      let build := AxiosRequest (post "create-list-tx" (Trade.apiKey this) data) in
      Trade.erc721_approval env me c t = (Return tt, t0) ->
      JSON_stringify (Trade.listNFT_body me c i p) = Return data ->
      respond env t0 build = Return res ->
      order_path env this res (t0 ++ [Called build])%list
                 (Trade.listNFT env this c i p t)).
Proof.
  intros me. split.
  - intros c p data build Hpre Hdata Hres.
    assert (B : Trade.createCollectionBid_build env this c p t
                = (Return res, (t0 ++ [Called build])%list)).
    { unfold Trade.createCollectionBid_build, bind, lift, call. cbn zeta.
      fold me. rewrite Hpre, Hdata. fold build. now rewrite Hres. }
    unfold Trade.createCollectionBid. rewrite (bind_returns _ _ _ _ _ B).
    apply sign_and_validate_order_path.
  - intros c i p data build Hpre Hdata Hres.
    assert (B : Trade.listNFT_build env this c i p t
                = (Return res, (t0 ++ [Called build])%list)).
    { unfold Trade.listNFT_build, bind, lift, call. cbn zeta.
      fold me. rewrite Hpre, Hdata. fold build. now rewrite Hres. }
    unfold Trade.listNFT. rewrite (bind_returns _ _ _ _ _ B).
    apply sign_and_validate_order_path.
Qed.

(** A bid whose build call answers with metadata is signed and validated;
    a listing whose build call answers with an empty array returns
    [undefined]; a listing whose build call answers [[null]] throws. *)
Lemma signed_orders_are_registered_witness :
  let empty := Scenario.world (Return (JBool true)) (Return JNull)
                 (Return (Scenario.response (JArr []))) (Return JNull) (Return JNull) in
  let nulls := Scenario.world (Return (JBool true)) (Return JNull)
                 (Return (Scenario.response (JArr [JNull]))) (Return JNull) (Return JNull) in
  (exists sign validate,
      snd (run (Trade.createCollectionBid Scenario.happy_order Scenario.sdk "0xAA" 100))
      = [Called (GetWavaxBalance "0xB0B");
         Called (GetWavaxApprovalStatus "0xB0B" (JBigInt 5));
         Called (AxiosRequest
           (post "create-collection-bid-tx" "key-123"
              (Some (JsonObj [("condition",
                 JsonObj [("price", JsonNum 100); ("buyer_address", JsonStr "0xB0B");
                          ("metadata", JsonObj [("contractAddress", JsonStr "0xAA");
                                                ("price", JsonStr "100")])])]))));
         sign; validate] /\
      sign = Called (HandleSignTransaction (JObj [("maker", JStr "0xB0B")])) /\
      validate = Called (AxiosRequest
        (post "validate-signature" "key-123" (Some (JsonObj [("order", JsonObj [])])))) /\
      outcome (Trade.createCollectionBid Scenario.happy_order Scenario.sdk "0xAA" 100)
      = Return (Scenario.response (JBool true))) /\
  outcome (Trade.listNFT empty Scenario.sdk "0xAA" "7" 100) = Return JUndefined /\
  (exists e, err_name e = "TypeError" /\
             outcome (Trade.listNFT nulls Scenario.sdk "0xAA" "7" 100) = Throw e).
Proof.
  intros empty nulls. split; [|split].
  - epose proof (signed_orders_are_registered Scenario.happy_order Scenario.sdk [] _ _)
      as [H _].
    destruct (H "0xAA" 100 _ eq_refl eq_refl eq_refl) as (R & _).
    specialize (R _ eq_refl). cbn [truthy] in R.
    specialize (R _ _ _ _ _ eq_refl eq_refl eq_refl eq_refl eq_refl).
    do 2 eexists. unfold outcome, run. rewrite R.
    split; [reflexivity|]. split; [reflexivity|]. split; reflexivity.
  - epose proof (signed_orders_are_registered empty Scenario.sdk [] _ _) as [_ H].
    destruct (H "0xAA" "7" 100 _ eq_refl eq_refl eq_refl) as (R & _).
    specialize (R _ eq_refl).
    unfold outcome, run. cbn [truthy] in R. simpl in R. rewrite R. reflexivity.
  - epose proof (signed_orders_are_registered nulls Scenario.sdk [] _ _) as [_ H].
    destruct (H "0xAA" "7" 100 _ eq_refl eq_refl eq_refl) as (_ & _ & N).
    destruct (N JNull [] eq_refl eq_refl) as (e & He & E).
    exists e. split; [exact He|]. unfold outcome, run. rewrite E. reflexivity.
Defined.

(** The claim as stated fails on a build answer that is a non-empty array
    without usable metadata, [[null]]: [listNFT] does not resolve to
    [undefined], it throws. *)
Lemma listNFT_throws_on_null_result :
  let nulls := Scenario.world (Return (JBool true)) (Return JNull)
                 (Return (Scenario.response (JArr [JNull]))) (Return JNull) (Return JNull) in
  respond nulls [Called (GetERC721ApprovalStatus "0xB0B" "0xAA")]
    (AxiosRequest (post "create-list-tx" "key-123"
       (Some (JsonObj [("condition",
          JsonObj [("list_tx_args",
            JsonArr [JsonObj [("token_address", JsonStr "0xAA_7");
                              ("seller_address", JsonStr "0xB0B");
                              ("metadata",
                               JsonObj [("contractAddress", JsonStr "0xAA");
                                        ("tokenId", JsonStr "7");
                                        ("price", JsonStr "100")])]])])]))))
  = Return (JObj [("status", JNum 200); ("data", JArr [JNull])]) /\
  outcome (Trade.listNFT nulls Scenario.sdk "0xAA" "7" 100)
  = Throw (TypeError "Cannot read properties of null (reading 'metadata')") /\
  outcome (Trade.listNFT nulls Scenario.sdk "0xAA" "7" 100) <> Return JUndefined.
Proof.
  intros nulls. split; [reflexivity|]. split; [reflexivity|].
  intros H. vm_compute in H. discriminate.
Qed.

(** ** C6: the Authorization header of the Query Client *)

Lemma send_spec env mk body t :
  match JSON_stringify body with
  | Return data =>
      snd (Read.send env mk body t) = (t ++ [Called (AxiosRequest (mk data))])%list
  | Throw e => Read.send env mk body t = (Throw e, t)
  end.
Proof.
  unfold Read.send, bind, lift, call. destruct (JSON_stringify body); reflexivity.
Qed.

(** C6, as the code has it. A Query Client operation issues at most one
    request (none when its arguments cannot be serialized), a POST whose
    headers are [Content-Type: application/json] and [Authorization] with
    the module constant [API_KEY], which is the empty string: no operation
    takes a key from its caller. *)
Theorem query_requests_carry_API_KEY env q t :
  (exists e, Read.perform env q t = (Throw e, t)) \/
  (exists config,
      snd (Read.perform env q t) = (t ++ [Called (AxiosRequest config)])%list /\
      method config = "post" /\
      headers config = [("Content-Type", "application/json"); ("Authorization", Read.API_KEY)] /\
      authorization config = Some "").
Proof.
  destruct q; simpl;
    unfold Read.getUserOwnedNFTs, Read.getCollectionBids, Read.getUserCollectionBids,
           Read.getUserListings, Read.getCollectionActivity, Read.getCollectionListings,
           Read.getUserActivity, Read.getCollectionStats;
    match goal with
    | |- context [Read.send env ?mk ?body t] =>
        pose proof (send_spec env mk body t) as H;
        destruct (JSON_stringify body) as [data|e];
        [right; exists (mk data); repeat split; exact H | left; exists e; exact H]
    end.
Qed.

(** The claim as stated fails: a caller whose API key is "key-123" (the key
    of the Trade Client in these scenarios) sees its query go out with an
    empty Authorization header. *)
Lemma query_does_not_carry_callers_key :
  Trade.apiKey Scenario.sdk = "key-123" /\
  exists config,
    calls (Read.getUserOwnedNFTs Scenario.happy "0xB0B" None JUndefined)
    = [AxiosRequest config] /\
    authorization config = Some "" /\
    authorization config <> Some (Trade.apiKey Scenario.sdk).
Proof.
  split; [reflexivity|]. eexists. split; [reflexivity|]. split; [reflexivity|].
  discriminate.
Qed.

(** ** C7: the bodies of the Query Client *)

(** [getCollectionStats] leaves [condition] out when no collection is given
    and sends [project_ids: [collection]] otherwise. *)
Lemma getCollectionStats_without_collection orderBy pagination body :
  JSON_stringify (Read.getCollectionStats_body None orderBy pagination) = Return (Some body) ->
  member "condition" body = None.
Proof.
  simpl. destruct (JSON_stringify orderBy) as [[o|]|]; simpl; try discriminate;
    destruct (JSON_stringify pagination) as [[p|]|]; simpl; try discriminate;
    intros H; inversion H; reflexivity.
Qed.

Lemma getCollectionStats_with_collection x orderBy pagination body :
  x <> "" ->
  JSON_stringify (Read.getCollectionStats_body (Some x) orderBy pagination)
  = Return (Some body) ->
  member "condition" body = Some (JsonObj [("project_ids", JsonArr [JsonStr x])]).
Proof.
  intros Hx. unfold Read.getCollectionStats_body. simpl truthy.
  destruct (String.eqb_spec x "") as [E|_]; [contradiction|]. simpl.
  destruct (JSON_stringify orderBy) as [[o|]|]; simpl; try discriminate;
    destruct (JSON_stringify pagination) as [[p|]|]; simpl; try discriminate;
    intros H; inversion H; reflexivity.
Qed.

Example getCollectionStats_X :
  JSON_stringify (Read.getCollectionStats_body (Some "X") JUndefined JUndefined)
  = Return (Some (JsonObj [("condition", JsonObj [("project_ids", JsonArr [JsonStr "X"])])])).
Proof. reflexivity. Qed.

(** [getUserOwnedNFTs] filters by collection only when one is given. *)
Lemma getUserOwnedNFTs_without_collection w pagination body :
  JSON_stringify (Read.getUserOwnedNFTs_body w None pagination) = Return (Some body) ->
  member "condition" body = Some (JsonObj [("owner", JsonStr w)]).
Proof.
  simpl. destruct (JSON_stringify pagination) as [[p|]|]; simpl; try discriminate;
    intros H; inversion H; reflexivity.
Qed.

(** Optional action types, ordering and pagination that are not supplied
    leave no trace in the body. *)
Example getUserActivity_minimal :
  JSON_stringify (Read.getUserActivity_body "0xB0B" None JUndefined)
  = Return (Some (JsonObj [("condition", JsonObj [("user_address", JsonStr "0xB0B")])])).
Proof. reflexivity. Qed.

Example getCollectionListings_minimal :
  JSON_stringify (Read.getCollectionListings_body "0xAA" JUndefined JUndefined)
  = Return (Some (JsonObj
      [("condition",
        JsonObj [("project_ids", JsonArr [JsonObj [("project_id", JsonStr "0xAA")]]);
                 ("listing_type", JsonStr "NORMAL")])])).
Proof. reflexivity. Qed.

(** C7 at [getUserListings] without a collection. The optional collection
    is not left out: the body still carries the [project_ids] filter, with
    one entry that has lost its [project_id], whereas [getUserOwnedNFTs] on
    the same arguments sends no [project_ids] at all. *)
Theorem getUserListings_without_collection :
  calls (Read.getUserListings Scenario.happy "0xB0B" None JUndefined)
  = [AxiosRequest (post "get-marketplace-snapshot" ""
       (Some (JsonObj [("condition",
          JsonObj [("owner", JsonStr "0xB0B");
                   ("project_ids", JsonArr [JsonObj []]);
                   ("listing_type", JsonStr "NORMAL")])])))] /\
  calls (Read.getUserOwnedNFTs Scenario.happy "0xB0B" None JUndefined)
  = [AxiosRequest (post "get-marketplace-snapshots" ""
       (Some (JsonObj [("condition", JsonObj [("owner", JsonStr "0xB0B")])])))].
Proof. split; reflexivity. Qed.

(** * Further properties of the two clients *)

(** ** What the request bodies say *)

(** The token is written as [<contractAddress>_<tokenId>] by every body
    that names one NFT. *)
Lemma token_address_in_body seller c i p metadata :
  let token := Some (JsonStr (c ++ "_" ++ i)) in
  (forall j, JSON_stringify (Trade.listNFT_body seller c i p) = Return (Some j) ->
             at_path ["condition"; "list_tx_args"; "0"; "token_address"] j = token) /\
  (forall j, JSON_stringify (Trade.buyNft_body seller c i p metadata) = Return (Some j) ->
             at_path ["condition"; "buy_tx_args"; "0"; "token_address"] j = token) /\
  (forall j, JSON_stringify (Trade.delistNFT_body seller c i p metadata) = Return (Some j) ->
             at_path ["condition"; "delist_tx_args"; "0"; "token_address"] j = token) /\
  (forall j, JSON_stringify (Trade.acceptCollectionBid_body seller c i p metadata)
             = Return (Some j) ->
             at_path ["condition"; "token_address"] j = token).
Proof.
  intros token. subst token. repeat split; intros j;
    unfold Trade.listNFT_body, Trade.buyNft_body, Trade.delistNFT_body,
           Trade.acceptCollectionBid_body;
    cbn [JSON_stringify rbind];
    try (destruct (JSON_stringify metadata) as [[jm|]|e]; cbn [rbind]);
    intros H; inversion H; reflexivity.
Qed.

(** The party a body names is the address it was built for. *)
Lemma party_address_in_body this c i p metadata :
  let me := Trade.address (Trade.wallet this) in
  (forall j, JSON_stringify (Trade.createCollectionBid_body me c p) = Return (Some j) ->
             at_path ["condition"; "buyer_address"] j = Some (JsonStr me)) /\
  (forall j, JSON_stringify (Trade.listNFT_body me c i p) = Return (Some j) ->
             at_path ["condition"; "list_tx_args"; "0"; "seller_address"] j
             = Some (JsonStr me)) /\
  (forall j, JSON_stringify (broadcast_body this (Trade.Buy c i p metadata))
             = Return (Some j) ->
             at_path ["condition"; "buy_tx_args"; "0"; "buyer_address"] j
             = Some (JsonStr me)) /\
  (forall j, JSON_stringify (broadcast_body this (Trade.Accept c i p metadata))
             = Return (Some j) ->
             at_path ["condition"; "seller_address"] j = Some (JsonStr me)) /\
  (forall j, JSON_stringify (broadcast_body this (Trade.Delist c i p metadata))
             = Return (Some j) ->
             at_path ["condition"; "delist_tx_args"; "0"; "seller_address"] j
             = Some (JsonStr me)) /\
  (forall j, JSON_stringify (broadcast_body this (Trade.Cancel p metadata))
             = Return (Some j) ->
             at_path ["condition"; "buyer_address"] j = Some (JsonStr me)).
Proof.
  intros me. subst me. repeat split; intros j;
    unfold broadcast_body, Trade.createCollectionBid_body, Trade.listNFT_body,
           Trade.buyNft_body, Trade.delistNFT_body, Trade.acceptCollectionBid_body,
           Trade.cancelCollectionBid_body;
    cbn [JSON_stringify rbind];
    try (destruct (JSON_stringify metadata) as [[jm|]|e]; cbn [rbind]);
    intros H; inversion H; reflexivity.
Qed.

(** ** The broadcast path, step by step *)

(** X3. When the build call answers without a [byte_string] (an empty
    array, no [data], a first element without the field), each of the four
    broadcast-path operations returns [{ digest: null, errors: "Failed to
    create ..." }] right after that call: nothing is signed or broadcast. *)
Theorem build_without_bytes_is_reported env this op t t0 data res guard :
  let build := Called (AxiosRequest
                 (post (broadcast_endpoint op) (Trade.apiKey this) data)) in
  precheck env this op t = (Return tt, t0) ->
  JSON_stringify (broadcast_body this op) = Return data ->
  respond env t0 (AxiosRequest (post (broadcast_endpoint op) (Trade.apiKey this) data))
  = Return res ->
  payable op ->
  Trade.payload_guard res "byte_string" = Return guard ->
  truthy guard = false ->
  exists r,
    Trade.perform env this op t = (Return r, (t0 ++ [build])%list) /\
    reports "Failed to create" r.
Proof.
  intros build Hpre Hdata Hres Hpay Hguard Hfalse. subst build.
  destruct op;
    cbn [broadcast_body broadcast_endpoint precheck payable Trade.perform]
      in Hpre, Hdata, Hres, Hpay |- *.
  - destruct Hpay as (n & Hn). inversion Hpre; subst t0.
    run_to_build Hpre Hdata Hres. rewrite Hn, Hguard, Hfalse.
    eexists. split; [reflexivity|]. split; [reflexivity|]. eexists. split; reflexivity.
  - run_to_build Hpre Hdata Hres. rewrite Hguard, Hfalse.
    eexists. split; [reflexivity|]. split; [reflexivity|]. eexists. split; reflexivity.
  - inversion Hpre; subst t0.
    run_to_build Hpre Hdata Hres. rewrite Hguard, Hfalse.
    eexists. split; [reflexivity|]. split; [reflexivity|]. eexists. split; reflexivity.
  - inversion Hpre; subst t0.
    run_to_build Hpre Hdata Hres. rewrite Hguard, Hfalse.
    eexists. split; [reflexivity|]. split; [reflexivity|]. eexists. split; reflexivity.
Qed.

Lemma build_without_bytes_is_reported_witness :
  let env := Scenario.world (Return (JBool true)) (Return JNull)
               (Return (Scenario.response (JArr []))) (Return JNull) (Return JNull) in
  exists r build,
    Trade.cancelCollectionBid env Scenario.sdk 100 JNull [] = (Return r, [build]) /\
    reports "Failed to create" r.
Proof.
  intros env.
  destruct (build_without_bytes_is_reported env Scenario.sdk (Trade.Cancel 100 JNull)
              [] [] _ _ _ eq_refl eq_refl eq_refl I eq_refl eq_refl) as (r & E & R).
  exists r. eexists. split; [exact E | exact R].
Defined.

(** X4. Once the build call has answered with a [byte_string] and signing
    and broadcasting has produced a receipt whose [status] is a number (or a
    boolean, a BigInt, [null] or [undefined]: not a string or an object),
    the receipt alone decides the result.  [buyNft] and
    [acceptCollectionBid] return [{ digest: <hash>, errors: null }] exactly
    when [status == 1] and the hash is truthy; [delistNFT] and
    [cancelCollectionBid] do so exactly when the hash is truthy, whatever the
    status.  Otherwise the result is
    [{ digest: null, errors: "Failed to sign and execute ..." }]. *)
Theorem receipt_decides_the_result
    env this op t t0 data res bytes receipt status hash :
  let build := Called (AxiosRequest
                 (post (broadcast_endpoint op) (Trade.apiKey this) data)) in
  precheck env this op t = (Return tt, t0) ->
  JSON_stringify (broadcast_body this op) = Return data ->
  respond env t0 (AxiosRequest (post (broadcast_endpoint op) (Trade.apiKey this) data))
  = Return res ->
  payable op ->
  Trade.payload_guard res "byte_string" = Return bytes ->
  truthy bytes = true ->
  (forall tx, js_get tx "data" = Return bytes ->
              respond env (t0 ++ [build])%list (HandleSignAndExecute tx) = Return receipt) ->
  js_get receipt "status" = Return status ->
  compares_as_primitive status = true ->
  js_get receipt "transactionHash" = Return hash ->
  exists r tx,
    Trade.perform env this op t
    = (Return r, (t0 ++ [build; Called (HandleSignAndExecute tx)])%list) /\
    js_get tx "data" = Return bytes /\
    if (if checks_status op then loose_eq_one status else true) && truthy hash
    then r = JObj [("digest", hash); ("errors", JNull)]
    else reports "Failed to sign and execute" r.
Proof.
  intros build Hpre Hdata Hres Hpay Hguard Htrue Hexec Hstatus _ Hhash. subst build.
  pose proof (payload_of_guard _ _ _ Hguard Htrue) as Hbytes.
  destruct op;
    cbn [broadcast_body broadcast_endpoint precheck payable Trade.perform checks_status]
      in Hpre, Hdata, Hres, Hpay, Hexec |- *.
  - destruct Hpay as (n & Hn). inversion Hpre; subst t0.
    run_to_build Hpre Hdata Hres. rewrite Hn, Hguard, Htrue, Hbytes.
    unfold call.
    match goal with
    | |- context [respond env _ (HandleSignAndExecute ?tx)] =>
        rewrite (Hexec tx eq_refl)
    end.
    rewrite (settle_checked_spec _ _ _ _ _ Hstatus Hhash).
    do 2 eexists. rewrite <- List.app_assoc. split; [reflexivity|]. split; [reflexivity|].
    destruct (loose_eq_one status && truthy hash); [reflexivity|].
    split; [reflexivity|]. eexists. split; reflexivity.
  - run_to_build Hpre Hdata Hres. rewrite Hguard, Htrue, Hbytes.
    unfold call.
    match goal with
    | |- context [respond env _ (HandleSignAndExecute ?tx)] =>
        rewrite (Hexec tx eq_refl)
    end.
    rewrite (settle_checked_spec _ _ _ _ _ Hstatus Hhash).
    do 2 eexists. rewrite <- List.app_assoc. split; [reflexivity|]. split; [reflexivity|].
    destruct (loose_eq_one status && truthy hash); [reflexivity|].
    split; [reflexivity|]. eexists. split; reflexivity.
  - inversion Hpre; subst t0.
    run_to_build Hpre Hdata Hres. rewrite Hguard, Htrue, Hbytes.
    unfold call.
    match goal with
    | |- context [respond env _ (HandleSignAndExecute ?tx)] =>
        rewrite (Hexec tx eq_refl)
    end.
    rewrite (settle_unchecked_spec _ _ _ _ Hhash).
    do 2 eexists. rewrite <- List.app_assoc. split; [reflexivity|]. split; [reflexivity|].
    cbn [andb]. destruct (truthy hash); [reflexivity|].
    split; [reflexivity|]. eexists. split; reflexivity.
  - inversion Hpre; subst t0.
    run_to_build Hpre Hdata Hres. rewrite Hguard, Htrue, Hbytes.
    unfold call.
    match goal with
    | |- context [respond env _ (HandleSignAndExecute ?tx)] =>
        rewrite (Hexec tx eq_refl)
    end.
    rewrite (settle_unchecked_spec _ _ _ _ Hhash).
    do 2 eexists. rewrite <- List.app_assoc. split; [reflexivity|]. split; [reflexivity|].
    cbn [andb]. destruct (truthy hash); [reflexivity|].
    split; [reflexivity|]. eexists. split; reflexivity.
Qed.

(** An accepted bid whose receipt has status 1 and the hash 0xABC. *)
Lemma receipt_decides_the_result_witness :
  exists r t',
    Trade.acceptCollectionBid Scenario.happy Scenario.sdk "0xAA" "7" 100 JNull []
    = (Return r, t') /\
    r = JObj [("digest", JStr "0xABC"); ("errors", JNull)].
Proof.
  destruct (receipt_decides_the_result Scenario.happy Scenario.sdk
              (Trade.Accept "0xAA" "7" 100 JNull) [] _ _ _ (JStr "0x01")
              (Scenario.receipt 1 "0xABC") (JNum 1) (JStr "0xABC")
              eq_refl eq_refl eq_refl I eq_refl eq_refl (fun _ _ => eq_refl)
              eq_refl eq_refl eq_refl) as (r & tx & E & _ & R).
  exists r. eexists. split; [exact E | exact R].
Defined.



(** ** The requests of the Trade Client *)

Lemma prefix_append s x : String.prefix s (s ++ x) = true.
Proof.
  induction s as [|a s IH]; simpl; [now destruct x|].
  destruct (ascii_dec a a); [exact IH | congruence].
Qed.

(** Peel one construct off a goal [emits (keyed _) _]. *)
Ltac keyed_step :=
  match goal with
  | |- emits _ (bind _ _) => apply emits_bind; [|intros]
  | |- emits _ (try_catch _ _) => apply emits_try_catch; [|intros]
  | |- emits _ (if ?b then _ else _) => destruct b
  | |- emits _ (call _ (AxiosRequest _)) =>
      apply emits_call; split; [reflexivity|split; [reflexivity|apply prefix_append]]
  | |- emits _ (call _ _) => apply emits_call; exact I
  | |- emits _ (console_log _ _) => apply emits_console_log; exact I
  | |- emits _ (Trade.report _) => apply emits_report; exact I
  | |- emits _ (lift _) => apply emits_lift
  | |- emits _ (ret _) => apply emits_ret
  | |- emits _ (Trade.settle_checked _ _) => apply settle_checked_emits
  | |- emits _ (Trade.settle_unchecked _ _) => apply settle_unchecked_emits
  end.

(** X6. Every HTTP request made by a method of the Trade Client, the
    validation request included, is a POST to an endpoint under the fixed
    base url whose headers are [Content-Type: application/json] and
    [Authorization: <the apiKey given at construction>]. *)
Theorem trade_requests_are_keyed env apiKey wallet rpc :
  let this := Trade.constructor apiKey wallet rpc in
  (forall order, emits (keyed apiKey) (Trade.validateSignature env this order)) /\
  (forall c p, emits (keyed apiKey) (Trade.createCollectionBid env this c p)) /\
  (forall c i p, emits (keyed apiKey) (Trade.listNFT env this c i p)) /\
  (forall op, emits (keyed apiKey) (Trade.perform env this op)).
Proof.
  intros this.
  assert (V : forall order, emits (keyed apiKey) (Trade.validateSignature env this order)).
  { intros order. unfold Trade.validateSignature. repeat keyed_step. }
  assert (S : forall res, emits (keyed apiKey) (Trade.sign_and_validate env this res)).
  { intros res. unfold Trade.sign_and_validate. repeat keyed_step. apply V. }
  split; [exact V|]. split; [|split].
  - intros c p. unfold Trade.createCollectionBid, Trade.createCollectionBid_build,
      Trade.wavax_approval. cbn zeta. repeat keyed_step. apply S.
  - intros c i p. unfold Trade.listNFT, Trade.listNFT_build, Trade.erc721_approval.
    cbn zeta. repeat keyed_step. apply S.
  - intros op. destruct op; cbn [Trade.perform];
      unfold Trade.buyNft, Trade.acceptCollectionBid, Trade.delistNFT,
        Trade.cancelCollectionBid, Trade.buyNft_try, Trade.acceptCollectionBid_try,
        Trade.delistNFT_try, Trade.cancelCollectionBid_try, Trade.erc721_approval;
      cbn zeta; repeat keyed_step.
Qed.

(** ** The Query Client as a pass-through *)

Lemma perform_is_send env q :
  exists mk,
    Read.perform env q = Read.send env mk (query_body q) /\
    forall body, exists endpoint,
        mk body = post endpoint Read.API_KEY body \/
        mk body = post_unbounded endpoint Read.API_KEY body.
Proof.
  destruct q; cbn [Read.perform query_body];
    unfold Read.getUserOwnedNFTs, Read.getCollectionBids, Read.getUserCollectionBids,
           Read.getUserListings, Read.getCollectionActivity, Read.getCollectionListings,
           Read.getUserActivity, Read.getCollectionStats;
    eexists; (split; [reflexivity|]); intros body; eexists; eauto.
Qed.

(** X7. A Query Client operation adds nothing of its own to the exchange:
    it sends exactly one request, whose body is the serialized condition, to
    an endpoint under the base url, and its outcome is the outcome of that
    request, unchanged (the response it resolved to, or the error it was
    rejected with).  When the arguments cannot be serialized, that error is
    thrown and no request is sent. *)
Theorem query_is_a_pass_through env q t :
  match JSON_stringify (query_body q) with
  | Return body =>
      exists config,
        Read.perform env q t
        = (respond env t (AxiosRequest config), (t ++ [Called (AxiosRequest config)])%list) /\
        data config = body /\
        String.prefix base_url (url config) = true
  | Throw e => Read.perform env q t = (Throw e, t)
  end.
Proof.
  destruct (perform_is_send env q) as (mk & E & Hmk). rewrite E.
  unfold Read.send, bind, lift, call.
  destruct (JSON_stringify (query_body q)) as [body|e]; [|reflexivity].
  exists (mk body). split; [reflexivity|].
  destruct (Hmk body) as (endpoint & [H|H]); rewrite H; cbn [data url post post_unbounded];
    (split; [reflexivity|]); apply prefix_append.
Qed.

Lemma stringify_strings l :
  JSON_stringify (JArr (map JStr l)) = Return (Some (JsonArr (map JsonStr l))).
Proof.
  cbn [JSON_stringify].
  assert (E : (fix elems (l : list JsVal) : JsResult (list Json) :=
                 match l with
                 | [] => Return []
                 | x :: r =>
                     rbind (JSON_stringify x) (fun jx =>
                     rbind (elems r) (fun jr =>
                     Return (match jx with Some j => j | None => JsonNull end :: jr)))
                 end) (map JStr l) = Return (map JsonStr l)).
  { induction l as [|x r IH]; [reflexivity|]. cbn [map]. rewrite IH. reflexivity. }
  rewrite E. reflexivity.
Qed.

(** X8. [getUserOwnedNFTs] and [getCollectionStats] send the collection
    filter exactly when the collection is a non-empty string: an absent
    collection and the empty string both leave [project_ids] out (and with it
    the whole [condition] of [getCollectionStats]).  The two operations
    shape the filter differently: entries [{ project_id }] in the first,
    bare ids in the second. *)
Theorem collection_filter_when_given w collection orderBy pagination :
  let given := match collection with
               | Some s => negb (String.eqb s "")
               | None => false
               end in
  (forall j,
      JSON_stringify (Read.getUserOwnedNFTs_body w collection pagination) = Return (Some j) ->
      at_path ["condition"; "owner"] j = Some (JsonStr w) /\
      at_path ["condition"; "project_ids"] j
      = if given
        then Some (JsonArr [JsonObj [("project_id", JSON_string_of collection)]])
        else None) /\
  (forall j,
      JSON_stringify (Read.getCollectionStats_body collection orderBy pagination)
      = Return (Some j) ->
      member "condition" j
      = if given
        then Some (JsonObj [("project_ids", JsonArr [JSON_string_of collection])])
        else None).
Proof.
  intros given. subst given. split; intros j;
    unfold Read.getUserOwnedNFTs_body, Read.getCollectionStats_body;
    destruct collection as [c|]; cbn [Read.opt_str truthy JSON_string_of];
    try destruct (String.eqb c ""); cbn [negb JSON_stringify rbind];
    try (destruct (JSON_stringify orderBy) as [[jo|]|e]; cbn [rbind]);
    destruct (JSON_stringify pagination) as [[jp|]|e']; cbn [rbind];
    intros H; inversion H; try split; reflexivity.
Qed.

Lemma collection_filter_when_given_witness :
  exists j,
    JSON_stringify (Read.getCollectionStats_body (Some "") JUndefined JUndefined)
    = Return (Some j) /\
    member "condition" j = None.
Proof.
  eexists. split; [reflexivity|].
  exact (proj2 (collection_filter_when_given "0xB0B" (Some "") JUndefined JUndefined)
           _ eq_refl).
Defined.

Lemma stringify_object ps :
  JSON_stringify (JObj ps)
  = rbind (stringify_members ps) (fun ms => Return (Some (JsonObj ms))).
Proof.
  cbn [JSON_stringify]. f_equal.
Qed.

(** The last property of an object, if no other has its name, is found in
    the text under that name. *)
Lemma stringify_last_member ps k v ms :
  ~ In k (map fst ps) ->
  stringify_members (ps ++ [(k, v)]) = Return ms ->
  exists jv, JSON_stringify v = Return jv /\ lookup k ms = jv.
Proof.
  revert ms. induction ps as [|[k' x] r IH]; intros ms Hk H; cbn [app stringify_members] in H.
  - destruct (JSON_stringify v) as [[j|]|e]; cbn [rbind] in H; inversion H; subst.
    + exists (Some j). split; [reflexivity|]. cbn. now rewrite String.eqb_refl.
    + exists None. split; reflexivity.
  - destruct (JSON_stringify x) as [jx|e]; cbn [rbind] in H; [|discriminate].
    destruct (stringify_members (r ++ [(k, v)])) as [jr|e]; cbn [rbind] in H; [|discriminate].
    assert (Hk' : ~ In k (map fst r)).
    { intros HIn. apply Hk. right. exact HIn. }
    destruct (IH jr Hk' eq_refl) as (jv & Hv & Hl).
    exists jv. split; [exact Hv|].
    assert (Hne : String.eqb k k' = false).
    { apply String.eqb_neq. intros E. apply Hk. left. now subst. }
    inversion H as [Hms]. destruct jx; cbn [lookup]; [rewrite Hne|]; exact Hl.
Qed.

(** X9. In all eight Query Client operations the pagination argument is
    forwarded verbatim as the top-level member [pagination_info] of the
    body, and the member is absent when no pagination is given. *)
Theorem pagination_is_forwarded q j :
  JSON_stringify (query_body q) = Return (Some j) ->
  exists jp,
    JSON_stringify (query_pagination q) = Return jp /\
    member "pagination_info" j = jp.
Proof.
  assert (L : forall ps p,
             ~ In "pagination_info" (map fst ps) ->
             JSON_stringify (JObj (ps ++ [("pagination_info", p)])) = Return (Some j) ->
             exists jp, JSON_stringify p = Return jp /\ member "pagination_info" j = jp).
  { intros ps p Hk H. rewrite stringify_object in H.
    destruct (stringify_members (ps ++ [("pagination_info", p)])) as [ms|e] eqn:E;
      cbn [rbind] in H; [|discriminate].
    inversion H; subst. exact (stringify_last_member ps _ p ms Hk E). }
  assert (N1 : forall c : JsVal, ~ In "pagination_info" (map fst [("condition", c)])).
  { intros c [H|[]]. discriminate. }
  assert (N2 : forall c o : JsVal,
             ~ In "pagination_info" (map fst [("condition", c); ("order_by", o)])).
  { intros c o [H|[H|[]]]; discriminate. }
  assert (N3 : forall o : JsVal, ~ In "pagination_info" (map fst [("order_by", o)])).
  { intros o [H|[]]. discriminate. }
  destruct q; cbn [query_body query_pagination];
    unfold Read.getUserOwnedNFTs_body, Read.getCollectionBids_body,
           Read.getUserCollectionBids_body, Read.getUserListings_body,
           Read.getCollectionActivity_body, Read.getCollectionListings_body,
           Read.getUserActivity_body, Read.getCollectionStats_body;
    try destruct (truthy (Read.opt_str collection));
    first [ apply (L [(_, _)] _ (N1 _))
          | apply (L [(_, _); (_, _)] _ (N2 _ _))
          | apply (L [(_, _)] _ (N3 _)) ].
Qed.

Lemma pagination_is_forwarded_witness :
  exists j,
    JSON_stringify
      (query_body (Read.QCollectionBids "0xAA" (JObj [("page_number", JNum 2)])))
    = Return (Some j) /\
    member "pagination_info" j = Some (JsonObj [("page_number", JsonNum 2)]).
Proof.
  eexists. split; [reflexivity|].
  destruct (pagination_is_forwarded
              (Read.QCollectionBids "0xAA" (JObj [("page_number", JNum 2)])) _ eq_refl)
    as (jp & E & M).
  rewrite M. inversion E. reflexivity.
Defined.

(** ** What the operations never do *)

Ltac never_step :=
  first [ emits_step
        | apply settle_checked_emits
        | apply settle_unchecked_emits ].

(** X10. The two paths do not mix.  [createCollectionBid], [listNFT] and
    [validateSignature] never sign and broadcast a marketplace transaction
    ([handleSignAndExecute] is not called); the four broadcast-path
    operations never sign an order off chain ([handleSignTransaction] is not
    called). *)
Theorem paths_do_not_mix env this :
  (forall order, emits (never is_broadcast) (Trade.validateSignature env this order)) /\
  (forall c p, emits (never is_broadcast) (Trade.createCollectionBid env this c p)) /\
  (forall c i p, emits (never is_broadcast) (Trade.listNFT env this c i p)) /\
  (forall op, emits (never is_offline_sign) (Trade.perform env this op)).
Proof.
  assert (V : forall order, emits (never is_broadcast)
                              (Trade.validateSignature env this order)).
  { intros order. unfold Trade.validateSignature. repeat never_step. }
  assert (S : forall res, emits (never is_broadcast) (Trade.sign_and_validate env this res)).
  { intros res. unfold Trade.sign_and_validate. repeat never_step. apply V. }
  split; [exact V|]. split; [|split].
  - intros c p. unfold Trade.createCollectionBid, Trade.createCollectionBid_build,
      Trade.wavax_approval. cbn zeta. repeat never_step. apply S.
  - intros c i p. unfold Trade.listNFT, Trade.listNFT_build, Trade.erc721_approval.
    cbn zeta. repeat never_step. apply S.
  - intros op. destruct op; cbn [Trade.perform];
      unfold Trade.buyNft, Trade.acceptCollectionBid, Trade.delistNFT,
        Trade.cancelCollectionBid, Trade.buyNft_try, Trade.acceptCollectionBid_try,
        Trade.delistNFT_try, Trade.cancelCollectionBid_try, Trade.erc721_approval;
      cbn zeta; repeat never_step.
Qed.

(** X11. [buyNft] and [cancelCollectionBid] have no approval pre-check
    either: no run of them queries an approval status or submits an approval
    transaction. *)
Theorem buy_and_cancel_skip_approval env this :
  (forall c i p m, emits (never is_approval) (Trade.buyNft env this c i p m)) /\
  (forall p m, emits (never is_approval) (Trade.cancelCollectionBid env this p m)).
Proof.
  split; intros;
    unfold Trade.buyNft, Trade.cancelCollectionBid, Trade.buyNft_try,
      Trade.cancelCollectionBid_try; cbn zeta; repeat never_step.
Qed.

(** ** No retries *)

Lemma count_app kind (a b : Trace) :
  count kind (a ++ b)%list = (count kind a + count kind b)%nat.
Proof. unfold count. now rewrite filter_app, length_app. Qed.

Lemma bounded_weaken kind n n' {A} (m : M A) :
  bounded kind n m -> (n <= n')%nat -> bounded kind n' m.
Proof. intros H L t. destruct (H t) as (new & E & C). exists new. split; [exact E | lia]. Qed.

Lemma bounded_ret kind {A} (a : A) : bounded kind 0 (ret a).
Proof. intros t. exists []. rewrite List.app_nil_r. split; [reflexivity | apply le_n]. Qed.

Lemma bounded_lift kind {A} (r : JsResult A) : bounded kind 0 (lift r).
Proof. intros t. exists []. rewrite List.app_nil_r. split; [reflexivity | apply le_n]. Qed.

Lemma bounded_call_other kind env c :
  kind (Called c) = false -> bounded kind 0 (call env c).
Proof.
  intros H t. exists [Called c]. split; [reflexivity|].
  unfold count. cbn. rewrite H. apply le_n.
Qed.

Lemma bounded_call_one kind env c : bounded kind 1 (call env c).
Proof.
  intros t. exists [Called c]. split; [reflexivity|].
  unfold count. cbn. destruct (kind (Called c)); cbn; lia.
Qed.

Lemma bounded_console_log kind text v :
  kind (Logged text v) = false -> bounded kind 0 (console_log text v).
Proof.
  intros H t. exists [Logged text v]. split; [reflexivity|].
  unfold count. cbn. rewrite H. apply le_n.
Qed.

Lemma bounded_report kind e :
  kind (LoggedError e) = false -> bounded kind 0 (Trade.report e).
Proof.
  intros H t. exists [LoggedError e]. split; [reflexivity|].
  unfold count. cbn. rewrite H. apply le_n.
Qed.

Lemma bounded_bind kind n1 n2 {A B} (m : M A) (k : A -> M B) :
  bounded kind n1 m -> (forall a, bounded kind n2 (k a)) ->
  bounded kind (n1 + n2) (bind m k).
Proof.
  intros Hm Hk t. unfold bind.
  destruct (Hm t) as (a1 & E1 & C1).
  destruct (m t) as [[a|e] t1]; simpl in E1; subst t1.
  - destruct (Hk a (t ++ a1)%list) as (a2 & E2 & C2).
    exists (a1 ++ a2)%list. rewrite E2, List.app_assoc, count_app.
    split; [reflexivity | lia].
  - exists a1. split; [reflexivity | lia].
Qed.

Lemma bounded_try_catch kind n1 n2 {A} (body : M A) (h : JsError -> M A) :
  bounded kind n1 body -> (forall e, bounded kind n2 (h e)) ->
  bounded kind (n1 + n2) (try_catch body h).
Proof.
  intros Hb Hh t. unfold try_catch.
  destruct (Hb t) as (a1 & E1 & C1).
  destruct (body t) as [[a|e] t1]; simpl in E1; subst t1.
  - exists a1. split; [reflexivity | lia].
  - destruct (Hh e (t ++ a1)%list) as (a2 & E2 & C2).
    exists (a1 ++ a2)%list. rewrite E2, List.app_assoc, count_app.
    split; [reflexivity | lia].
Qed.

Lemma bounded_if kind n1 n2 {A} (b : bool) (x y : M A) :
  bounded kind n1 x -> bounded kind n2 y ->
  bounded kind (Nat.max n1 n2) (if b then x else y).
Proof.
  intros Hx Hy. destruct b.
  - apply (bounded_weaken kind n1); [exact Hx | lia].
  - apply (bounded_weaken kind n2); [exact Hy | lia].
Qed.

Lemma bounded_settle_checked kind r msg : bounded kind 0 (Trade.settle_checked r msg).
Proof.
  intros t. destruct (settle_checked_emits (fun _ => False) r msg t) as (new & E & F).
  exists new. split; [exact E|]. destruct new as [|x new]; [apply le_n|].
  inversion F; contradiction.
Qed.

Lemma bounded_settle_unchecked kind r msg : bounded kind 0 (Trade.settle_unchecked r msg).
Proof.
  intros t. destruct (settle_unchecked_emits (fun _ => False) r msg t) as (new & E & F).
  exists new. split; [exact E|]. destruct new as [|x new]; [apply le_n|].
  inversion F; contradiction.
Qed.

(** Peel one construct off a goal [bounded kind ?n _]. *)
Ltac bounded_step :=
  match goal with
  | |- bounded _ _ (bind _ _) => eapply bounded_bind; [|intros]
  | |- bounded _ _ (try_catch _ _) => eapply bounded_try_catch; [|intros]
  | |- bounded _ _ (if _ then _ else _) => eapply bounded_if
  | |- bounded _ _ (call _ _) =>
      first [eapply bounded_call_other; reflexivity | eapply bounded_call_one]
  | |- bounded _ _ (console_log _ _) => eapply bounded_console_log; reflexivity
  | |- bounded _ _ (Trade.report _) => eapply bounded_report; reflexivity
  | |- bounded _ _ (lift _) => eapply bounded_lift
  | |- bounded _ _ (ret _) => eapply bounded_ret
  | |- bounded _ _ (Trade.settle_checked _ _) => eapply bounded_settle_checked
  | |- bounded _ _ (Trade.settle_unchecked _ _) => eapply bounded_settle_unchecked
  end.

Ltac bounded_by_steps :=
  eapply bounded_weaken; [repeat bounded_step | cbn; lia].

(** X12. No operation retries or repeats a step.  One call of a
    broadcast-path operation sends at most one build request, submits at
    most one approval transaction and signs and broadcasts at most once; one
    call of [createCollectionBid] or [listNFT] submits at most one approval
    transaction, signs at most one order and sends at most two requests (the
    build call and the validation). *)
Theorem no_step_is_repeated env this :
  (forall op,
      bounded is_request 1 (Trade.perform env this op) /\
      bounded is_approve_tx 1 (Trade.perform env this op) /\
      bounded is_broadcast 1 (Trade.perform env this op)) /\
  (forall c p,
      bounded is_request 2 (Trade.createCollectionBid env this c p) /\
      bounded is_approve_tx 1 (Trade.createCollectionBid env this c p) /\
      bounded is_offline_sign 1 (Trade.createCollectionBid env this c p)) /\
  (forall c i p,
      bounded is_request 2 (Trade.listNFT env this c i p) /\
      bounded is_approve_tx 1 (Trade.listNFT env this c i p) /\
      bounded is_offline_sign 1 (Trade.listNFT env this c i p)).
Proof.
  split; [|split].
  - intros op. destruct op; cbn [Trade.perform];
      unfold Trade.buyNft, Trade.acceptCollectionBid, Trade.delistNFT,
        Trade.cancelCollectionBid, Trade.buyNft_try, Trade.acceptCollectionBid_try,
        Trade.delistNFT_try, Trade.cancelCollectionBid_try, Trade.erc721_approval;
      cbn zeta; repeat split; bounded_by_steps.
  - intros c p.
    unfold Trade.createCollectionBid, Trade.createCollectionBid_build,
      Trade.wavax_approval, Trade.sign_and_validate, Trade.validateSignature;
      cbn zeta; repeat split; bounded_by_steps.
  - intros c i p.
    unfold Trade.listNFT, Trade.listNFT_build, Trade.erc721_approval,
      Trade.sign_and_validate, Trade.validateSignature;
      cbn zeta; repeat split; bounded_by_steps.
Qed.

(** ** Failures of the signing path *)

Lemma sign_and_validate_throws_raw env this res t1 :
  throws_raw env this res t1 (Trade.sign_and_validate env this res t1).
Proof.
  intros metadata Hguard Ht sign.
  pose proof (payload_of_guard _ _ _ Hguard Ht) as Hp.
  unfold Trade.sign_and_validate, bind, lift. rewrite Hguard, Ht, Hp.
  split; [|split].
  - intros e He. unfold call at 1. now rewrite He.
  - intros signed bytes e Hs Hb He. unfold call at 1. now rewrite Hs, Hb, He.
  - intros signed bytes order data e Hs Hb Ho Hd He.
    unfold call at 1. rewrite Hs, Hb, Ho. unfold Trade.validateSignature, bind, lift, call.
    rewrite Hd. fold sign. rewrite He. subst sign.
    now rewrite <- List.app_assoc.
Qed.

(** X13. [createCollectionBid] and [listNFT] catch nothing.  If the build
    stage throws (approval, or the build request rejected), the operation
    throws that error and stops there.  After a build answer with metadata, a
    rejected signature, signed bytes that [JSON.parse] refuses, and a
    rejected validation are each thrown unchanged, and the validation request
    is not sent unless the signed bytes parsed. *)
Theorem order_path_errors_are_thrown env this t :
  (forall c p,
      (forall e t', Trade.createCollectionBid_build env this c p t = (Throw e, t') ->
                    Trade.createCollectionBid env this c p t = (Throw e, t')) /\
      (forall res t1, Trade.createCollectionBid_build env this c p t = (Return res, t1) ->
                      throws_raw env this res t1 (Trade.createCollectionBid env this c p t))) /\
  (forall c i p,
      (forall e t', Trade.listNFT_build env this c i p t = (Throw e, t') ->
                    Trade.listNFT env this c i p t = (Throw e, t')) /\
      (forall res t1, Trade.listNFT_build env this c i p t = (Return res, t1) ->
                      throws_raw env this res t1 (Trade.listNFT env this c i p t))).
Proof.
  split.
  - intros c p. split.
    + intros e t' H. unfold Trade.createCollectionBid. now apply bind_throws.
    + intros res t1 H. unfold Trade.createCollectionBid.
      rewrite (bind_returns _ _ _ _ _ H). apply sign_and_validate_throws_raw.
  - intros c i p. split.
    + intros e t' H. unfold Trade.listNFT. now apply bind_throws.
    + intros res t1 H. unfold Trade.listNFT.
      rewrite (bind_returns _ _ _ _ _ H). apply sign_and_validate_throws_raw.
Qed.

(** The build request is answered 500; and the wallet refuses to sign. *)
Lemma order_path_errors_are_thrown_witness :
  let down := Scenario.world (Return (JBool true)) (Return JNull)
                (Throw Scenario.http_500) (Return JNull) (Return JNull) in
  let refused := Scenario.world (Return (JBool true)) (Return JNull)
                   (Scenario.built "metadata" (JStr "order"))
                   (Throw Scenario.rejected) (Return JNull) in
  outcome (Trade.createCollectionBid down Scenario.sdk "0xAA" 100)
  = Throw Scenario.http_500 /\
  outcome (Trade.listNFT refused Scenario.sdk "0xAA" "7" 100) = Throw Scenario.rejected.
Proof.
  intros down refused. unfold outcome, run. split.
  - destruct (order_path_errors_are_thrown down Scenario.sdk []) as [H _].
    destruct (H "0xAA" 100) as [H1 _].
    rewrite (H1 Scenario.http_500 _ eq_refl). reflexivity.
  - destruct (order_path_errors_are_thrown refused Scenario.sdk []) as [_ H].
    destruct (H "0xAA" "7" 100) as [_ H2].
    epose proof (H2 _ _ eq_refl (JStr "order") eq_refl eq_refl) as (H3 & _).
    rewrite (H3 Scenario.rejected eq_refl). reflexivity.
Defined.

(** ** A build answer whose first element is null *)

(** X14. A build answer that is a non-empty array whose first element is
    [null] (or [undefined]) is not treated as "no payload": reading the
    field throws a TypeError.  [createCollectionBid] and [listNFT] then throw
    it, instead of returning [undefined]; the broadcast-path operations
    return it as [{ digest: null, errors: <its message> }], instead of their
    "Failed to create" result, and broadcast nothing. *)
Theorem null_first_element_is_a_TypeError env this t res x rest :
  js_get res "data" = Return (JArr (x :: rest)) ->
  is_nullish x = true ->
  (exists e,
      err_name e = "TypeError" /\
      (forall c p t1,
          Trade.createCollectionBid_build env this c p t = (Return res, t1) ->
          Trade.createCollectionBid env this c p t = (Throw e, t1)) /\
      (forall c i p t1,
          Trade.listNFT_build env this c i p t = (Return res, t1) ->
          Trade.listNFT env this c i p t = (Throw e, t1))) /\
  (exists e,
      err_name e = "TypeError" /\
      forall op t0 data,
        let build := Called (AxiosRequest
                       (post (broadcast_endpoint op) (Trade.apiKey this) data)) in
        precheck env this op t = (Return tt, t0) ->
        JSON_stringify (broadcast_body this op) = Return data ->
        respond env t0 (AxiosRequest (post (broadcast_endpoint op) (Trade.apiKey this) data))
        = Return res ->
        payable op ->
        Trade.perform env this op t
        = (Return (JObj [("digest", JNull); ("errors", JStr (message e))]),
           (t0 ++ [build; LoggedError e])%list)).
Proof.
  intros Hd Hx. split.
  - destruct (payload_guard_of_null res "metadata" x rest Hd Hx) as (e & He & Hn).
    exists e. split; [exact Hn|]. split.
    + intros c p t1 H. unfold Trade.createCollectionBid.
      rewrite (bind_returns _ _ _ _ _ H).
      unfold Trade.sign_and_validate, bind, lift. now rewrite He.
    + intros c i p t1 H. unfold Trade.listNFT.
      rewrite (bind_returns _ _ _ _ _ H).
      unfold Trade.sign_and_validate, bind, lift. now rewrite He.
  - destruct (payload_guard_of_null res "byte_string" x rest Hd Hx) as (e & Hb & Hn).
    exists e. split; [exact Hn|].
    intros op t0 data build Hpre Hdata Hres Hpay. subst build.
    destruct op;
      cbn [broadcast_body broadcast_endpoint precheck payable Trade.perform]
        in Hpre, Hdata, Hres, Hpay |- *.
    + destruct Hpay as (n & Hn'). inversion Hpre; subst t0.
      run_to_build Hpre Hdata Hres. rewrite Hn', Hb. cbn.
      now rewrite <- List.app_assoc.
    + run_to_build Hpre Hdata Hres. rewrite Hb. cbn. now rewrite <- List.app_assoc.
    + inversion Hpre; subst t0.
      run_to_build Hpre Hdata Hres. rewrite Hb. cbn. now rewrite <- List.app_assoc.
    + inversion Hpre; subst t0.
      run_to_build Hpre Hdata Hres. rewrite Hb. cbn. now rewrite <- List.app_assoc.
Qed.

Lemma null_first_element_is_a_TypeError_witness :
  let env := Scenario.world (Return (JBool true)) (Return JNull)
               (Return (Scenario.response (JArr [JNull]))) (Return JNull) (Return JNull) in
  (exists e,
      err_name e = "TypeError" /\
      outcome (Trade.listNFT env Scenario.sdk "0xAA" "7" 100) = Throw e) /\
  (exists e,
      err_name e = "TypeError" /\
      outcome (Trade.delistNFT env Scenario.sdk "0xAA" "7" 100 JNull)
      = Return (Trade.failed (message e))).
Proof.
  intros env.
  destruct (null_first_element_is_a_TypeError env Scenario.sdk []
              (Scenario.response (JArr [JNull])) JNull [] eq_refl eq_refl)
    as ((e & Hn & _ & Hl) & (e' & Hn' & Hb)).
  unfold outcome, run. split.
  - exists e. split; [exact Hn|].
    rewrite (Hl "0xAA" "7" 100 _ eq_refl). reflexivity.
  - exists e'. split; [exact Hn'|].
    specialize (Hb (Trade.Delist "0xAA" "7" 100 JNull) [] _ eq_refl eq_refl eq_refl I).
    cbn [Trade.perform] in Hb. rewrite Hb. reflexivity.
Defined.

(** ** Prices as numbers and as strings *)

Lemma no_space_rev s acc :
  no_space (rev_string s acc) = (no_space s && no_space acc)%bool.
Proof.
  revert acc. induction s as [|c r IH]; intros acc; simpl; [reflexivity|].
  rewrite IH. simpl. destruct (is_space c), (no_space r); reflexivity.
Qed.

Lemma trim_left_no_space s : no_space s = true -> trim_left s = s.
Proof.
  destruct s as [|c r]; [reflexivity|]. simpl. intros H.
  apply andb_true_iff in H as [H _]. now destruct (is_space c).
Qed.

Lemma trim_no_space s : no_space s = true -> trim s = s.
Proof.
  intros H. unfold trim. rewrite (trim_left_no_space s H).
  rewrite trim_left_no_space.
  - rewrite rev_string_rev. simpl. apply append_empty.
  - rewrite no_space_rev, H. reflexivity.
Qed.

Lemma all_digits_no_space s : all_digits s = true -> no_space s = true.
Proof.
  induction s as [|c r IH]; [reflexivity|]. simpl. intros H.
  apply andb_true_iff in H as [Hc Hr].
  now rewrite (is_digit_not_space c Hc), (IH Hr).
Qed.

Lemma all_digits_string_of_uint d : all_digits (NilEmpty.string_of_uint d) = true.
Proof. induction d; simpl; auto. Qed.

(** Reading the digits of [d] after an accumulator is [Pos.of_uint_acc]. *)
Lemma digits_value_of_uint_acc d acc :
  digits_value 10 (Z.pos acc) (NilEmpty.string_of_uint d)
  = Some (Z.pos (Pos.of_uint_acc d acc)).
Proof.
  revert acc. induction d; intros acc; [reflexivity|..];
    cbn [NilEmpty.string_of_uint digits_value Pos.of_uint_acc];
    match goal with
    | |- context [digit_value 10 ?c] =>
        let v := eval vm_compute in (digit_value 10 c) in
        change (digit_value 10 c) with v
    end;
    cbv iota; rewrite <- IHd; f_equal; lia.
Qed.

Lemma digits_value_of_uint d :
  digits_value 10 0 (NilEmpty.string_of_uint d) = Some (Z.of_N (Pos.of_uint d)).
Proof.
  induction d; [reflexivity|..];
    cbn [NilEmpty.string_of_uint digits_value Pos.of_uint];
    match goal with
    | |- context [digit_value 10 ?c] =>
        let v := eval vm_compute in (digit_value 10 c) in
        change (digit_value 10 c) with v
    end;
    cbv iota; cbn [Z.mul Z.add Z.of_N];
    first [exact IHd | apply digits_value_of_uint_acc].
Qed.

Lemma string_of_uint_nonempty d : d <> Decimal.Nil -> NilEmpty.string_of_uint d <> "".
Proof. destruct d; simpl; congruence. Qed.

(** [BigInt] reads the string form of an integer back as that integer. *)
Lemma parse_Z_to_string z : parse_integer_literal (Z_to_string z) = Some z.
Proof.
  unfold Z_to_string. destruct z as [|p|p]; [reflexivity|..];
    cbn [Z.to_int NilZero.string_of_int]; unfold NilZero.string_of_uint;
    pose proof (DecimalPos.Unsigned.to_uint_nonnil p) as Hnil;
    pose proof (all_digits_string_of_uint (Pos.to_uint p)) as Hd;
    pose proof (digits_value_of_uint (Pos.to_uint p)) as Hv;
    rewrite DecimalPos.Unsigned.of_to in Hv; cbn [Z.of_N] in Hv;
    pose proof (string_of_uint_nonempty _ Hnil) as Hne;
    destruct (Pos.to_uint p) eqn:E; try congruence; rewrite <- E in *; clear E.
  all: unfold parse_integer_literal.
  all: try (rewrite (trim_no_space _ (all_digits_no_space _ Hd));
            destruct (NilEmpty.string_of_uint (Pos.to_uint p)) as [|c r] eqn:Es;
            [congruence|];
            assert (Hc : is_digit c = true)
              by (simpl in Hd; now apply andb_true_iff in Hd);
            rewrite !(digit_is_not c) by (exact Hc || reflexivity);
            rewrite (radix_prefix_digits _ Hd);
            unfold nonempty_digits; exact Hv).
  all: rewrite trim_no_space
    by (cbn [no_space]; now rewrite (all_digits_no_space _ Hd)).
  all: cbn [Ascii.eqb Bool.eqb]; unfold nonempty_digits;
    destruct (NilEmpty.string_of_uint (Pos.to_uint p)) as [|c r] eqn:Es;
    [congruence|]; rewrite Hv; reflexivity.
Qed.

(** The price a body states as a string reads back as the number. *)
Lemma price_in_body me c i p :
  (forall j,
      JSON_stringify (Trade.createCollectionBid_body me c p) = Return (Some j) ->
      at_path ["condition"; "price"] j = Some (JsonNum p) /\
      exists s, at_path ["condition"; "metadata"; "price"] j = Some (JsonStr s) /\
                BigInt (JStr s) = Return p) /\
  (forall j,
      JSON_stringify (Trade.listNFT_body me c i p) = Return (Some j) ->
      exists s,
        at_path ["condition"; "list_tx_args"; "0"; "metadata"; "price"] j
        = Some (JsonStr s) /\
        BigInt (JStr s) = Return p).
Proof.
  assert (R : BigInt (JStr ("" ++ Z_to_string p)) = Return p).
  { unfold BigInt. cbn [to_string append]. now rewrite parse_Z_to_string. }
  split; intros j H;
    unfold Trade.createCollectionBid_body, Trade.listNFT_body in H;
    cbn [JSON_stringify rbind] in H; inversion H; subst.
  - split; [reflexivity|]. eexists. split; [reflexivity | exact R].
  - eexists. split; [reflexivity | exact R].
Qed.

(** ** Bounds on the payment *)

Lemma decimal_value_nonneg s : all_digits s = true -> 0 <= decimal_value s.
Proof.
  induction s as [|c r IH]; simpl; [lia|]. intros H.
  apply andb_true_iff in H as [Hc Hr]. specialize (IH Hr).
  unfold is_digit in Hc. apply andb_true_iff in Hc as [H1 H2].
  apply Nat.leb_le in H1, H2.
  assert (0 <= 10 ^ Z.of_nat (String.length r)) by (apply Z.pow_nonneg; lia).
  nia.
Qed.

Lemma total_bounds xs :
  Forall (fun x => 0 <= x) xs -> 0 <= total xs /\ Forall (fun x => x <= total xs) xs.
Proof.
  induction 1 as [|x xs Hx _ [IH1 IH2]]; cbn; [split; [lia | constructor]|].
  fold (total xs). split; [lia|]. constructor; [lia|].
  eapply Forall_impl; [|exact IH2]. intros a Ha. cbn in Ha. lia.
Qed.

(** X16. With decimal amounts, the value [buyNft] computes is never below
    the listed amount and never below any single fee: fees only add to the
    payment. *)
Theorem payment_covers_amount_and_fees metadata event_log amount fees amounts :
  js_get metadata "event_log" = Return event_log ->
  js_get event_log "erc20TokenAmount" = Return (JStr amount) ->
  js_get event_log "fees" = Return (JArr fees) ->
  Forall2 (fun fee a => js_get fee "amount" = Return (JStr a)) fees amounts ->
  Forall decimal (amount :: amounts) ->
  exists value,
    Trade.totalAmountToPay metadata = Return value /\
    decimal_value amount <= value /\
    Forall (fun a => decimal_value a <= value) amounts.
Proof.
  intros H1 H2 H3 H4 H5.
  rewrite (totalAmountToPay_decimal _ _ _ _ _ H1 H2 H3 H4 H5).
  inversion H5 as [|? ? [_ Ha] Hrest]; subst.
  assert (Hnn : Forall (fun x => 0 <= x) (map decimal_value amounts)).
  { apply Forall_forall. intros x Hin. apply in_map_iff in Hin as (a & Hx & Hin).
    subst x. rewrite Forall_forall in Hrest. destruct (Hrest a Hin) as [_ Hd].
    now apply decimal_value_nonneg. }
  destruct (total_bounds _ Hnn) as [T1 T2].
  pose proof (decimal_value_nonneg _ Ha) as A.
  eexists. split; [reflexivity|]. split; [lia|].
  apply Forall_forall. intros a Hin. rewrite Forall_forall in T2.
  specialize (T2 (decimal_value a) (in_map decimal_value _ _ Hin)). cbn in T2. lia.
Qed.

Lemma payment_covers_amount_and_fees_witness :
  exists value,
    Trade.totalAmountToPay (Scenario.listing ["50"; "25"]) = Return value /\
    1000 <= value /\ 50 <= value /\ 25 <= value.
Proof.
  assert (D : Forall decimal ["1000"; "50"; "25"]).
  { repeat constructor; discriminate. }
  assert (F : Forall2 (fun fee a => js_get fee "amount" = Return (JStr a))
                [JObj [("amount", JStr "50")]; JObj [("amount", JStr "25")]]
                ["50"; "25"]).
  { repeat constructor. }
  destruct (payment_covers_amount_and_fees (Scenario.listing ["50"; "25"]) _ "1000" _
              ["50"; "25"] eq_refl eq_refl eq_refl F D) as (v & E & Ha & Hf).
  exists v. split; [exact E|]. split; [exact Ha|].
  inversion Hf as [|? ? H50 Hf']; subst. inversion Hf' as [|? ? H25 _]; subst.
  split; [exact H50 | exact H25].
Defined.

(** ** An approval transaction without a receipt *)

Lemma erc721_approval_without_receipt env owner c t a r :
  let check := Called (GetERC721ApprovalStatus owner c) in
  let log := Logged (String.append "Approving marketplace to trade " c) None in
  erc721_check env owner c t = Return a ->
  truthy a = false ->
  respond env (t ++ [check; log])%list (ApproveErc721 c) = Return r ->
  is_nullish r = true ->
  exists e,
    err_name e = "TypeError" /\
    Trade.erc721_approval env owner c t
    = (Throw e, (t ++ [check; log; Called (ApproveErc721 c)])%list).
Proof.
  intros check log Hc Ha Hr Hn. unfold erc721_check in Hc.
  unfold Trade.erc721_approval, bind, call, console_log.
  subst check log. rewrite Hc, Ha. simpl in Hr |- *.
  rewrite <- ?List.app_assoc. simpl. rewrite Hr.
  destruct r; try discriminate; simpl; rewrite <- ?List.app_assoc;
    eexists; (split; [|reflexivity]); reflexivity.
Qed.

(** X17. The receipt of an approval transaction is read right after the
    transaction was submitted.  If [approveErc721] resolves to [null] or
    [undefined], reading its [transactionHash] throws a TypeError: the
    approval is already on its way, no request has reached the marketplace,
    [listNFT] throws the TypeError and [acceptCollectionBid] returns it as
    [{ digest: null, errors: <its message> }]. *)
Theorem approval_without_receipt env this c t a r :
  let owner := Trade.address (Trade.wallet this) in
  let check := Called (GetERC721ApprovalStatus owner c) in
  let log := Logged (String.append "Approving marketplace to trade " c) None in
  let approve := Called (ApproveErc721 c) in
  erc721_check env owner c t = Return a ->
  truthy a = false ->
  respond env (t ++ [check; log])%list (ApproveErc721 c) = Return r ->
  is_nullish r = true ->
  exists e,
    err_name e = "TypeError" /\
    (forall i p,
        Trade.listNFT env this c i p t = (Throw e, (t ++ [check; log; approve])%list)) /\
    (forall i p m,
        Trade.acceptCollectionBid env this c i p m t
        = (Return (JObj [("digest", JNull); ("errors", JStr (message e))]),
           (t ++ [check; log; approve; LoggedError e])%list)).
Proof.
  intros owner check log approve Hc Ha Hr Hn.
  destruct (erc721_approval_without_receipt env owner c t a r Hc Ha Hr Hn)
    as (e & He & Hs).
  exists e. split; [exact He|]. split.
  - intros i p. unfold Trade.listNFT, Trade.listNFT_build.
    apply bind_throws. cbn zeta. now apply bind_throws.
  - intros i p m. unfold Trade.acceptCollectionBid.
    rewrite (try_report_caught _ t e (t ++ [check; log; approve])%list).
    + now rewrite <- List.app_assoc.
    + unfold Trade.acceptCollectionBid_try. cbn zeta. now apply bind_throws.
Qed.

Lemma approval_without_receipt_witness :
  let env := Scenario.world (Return (JBool false)) (Return JUndefined)
               (Scenario.built "byte_string" (JStr "0x01")) (Return JNull) (Return JNull) in
  exists e,
    err_name e = "TypeError" /\
    outcome (Trade.listNFT env Scenario.sdk "0xAA" "7" 100) = Throw e /\
    calls (Trade.listNFT env Scenario.sdk "0xAA" "7" 100)
    = [GetERC721ApprovalStatus "0xB0B" "0xAA"; ApproveErc721 "0xAA"].
Proof.
  intros env.
  destruct (approval_without_receipt env Scenario.sdk "0xAA" [] (JBool false) JUndefined
              eq_refl eq_refl eq_refl eq_refl) as (e & He & Hl & _).
  exists e. split; [exact He|]. unfold outcome, calls, run.
  rewrite (Hl "7" 100). split; reflexivity.
Defined.

(** ** What the requests sent say *)

Lemma emits_bind_lift P {A B} (r : JsResult A) (k : A -> M B) :
  (forall a, r = Return a -> emits P (k a)) -> emits P (bind (lift r) k).
Proof.
  intros H t. unfold bind, lift. destruct r as [a|e].
  - exact (H a eq_refl t).
  - exists []. rewrite List.app_nil_r. split; [reflexivity | constructor].
Qed.

(** From the serialization of a body, in the context, to what the text
    says; [finish] proves the property on the text written out. *)
Ltac body_says finish :=
  match goal with
  | Heq : JSON_stringify _ = Return ?a |- exists j, ?a = Some j /\ _ =>
      revert Heq;
      unfold Trade.createCollectionBid_body, Trade.listNFT_body, Trade.buyNft_body,
             Trade.acceptCollectionBid_body, Trade.delistNFT_body,
             Trade.cancelCollectionBid_body;
      cbn [JSON_stringify rbind];
      try (match goal with
           | |- context [JSON_stringify ?m] => destruct (JSON_stringify m) as [[?|]|?]
           end; cbn [rbind]);
      intros Heq; inversion Heq; eexists; (split; [reflexivity|]); finish
  end.

(** Peel one construct off a goal [emits (build_request_says _ _) _]. *)
Ltac says_step finish :=
  match goal with
  | |- emits _ (bind (lift (JSON_stringify _)) _) => apply emits_bind_lift; intros ? ?
  | |- emits _ (bind _ _) => apply emits_bind; [|intros]
  | |- emits _ (try_catch _ _) => apply emits_try_catch; [|intros]
  | |- emits _ (if ?b then _ else _) => destruct b
  | |- emits _ (call _ (AxiosRequest _)) =>
      apply emits_call; cbn [build_request_says url data post];
      let Hurl := fresh "Hurl" in
      intros Hurl;
      first [ solve [vm_compute in Hurl; discriminate Hurl] | body_says finish ]
  | |- emits _ (call _ _) => apply emits_call; exact I
  | |- emits _ (console_log _ _) => apply emits_console_log; exact I
  | |- emits _ (Trade.report _) => apply emits_report; exact I
  | |- emits _ (lift _) => apply emits_lift
  | |- emits _ (ret _) => apply emits_ret
  | |- emits _ (Trade.settle_checked _ _) => apply settle_checked_emits
  | |- emits _ (Trade.settle_unchecked _ _) => apply settle_unchecked_emits
  end.

Ltac unfold_operations :=
  unfold Trade.createCollectionBid, Trade.createCollectionBid_build, Trade.listNFT,
    Trade.listNFT_build, Trade.sign_and_validate, Trade.validateSignature,
    Trade.buyNft, Trade.acceptCollectionBid, Trade.delistNFT, Trade.cancelCollectionBid,
    Trade.buyNft_try, Trade.acceptCollectionBid_try, Trade.delistNFT_try,
    Trade.cancelCollectionBid_try, Trade.wavax_approval, Trade.erc721_approval;
  cbn zeta.

(** X1. Whatever an operation that names one NFT sends to its build
    endpoint, the body of that request carries the token as
    [<contractAddress>_<tokenId>]: in the first entry of [list_tx_args],
    [buy_tx_args] and [delist_tx_args], and directly in the condition of
    [acceptCollectionBid]. *)
Theorem token_address_is_joined env this c i p metadata :
  let token path j := at_path path j = Some (JsonStr (c ++ "_" ++ i)) in
  emits (build_request_says "create-list-tx"
           (token ["condition"; "list_tx_args"; "0"; "token_address"]))
        (Trade.listNFT env this c i p) /\
  emits (build_request_says "create-buy-tx"
           (token ["condition"; "buy_tx_args"; "0"; "token_address"]))
        (Trade.buyNft env this c i p metadata) /\
  emits (build_request_says "create-delist-tx"
           (token ["condition"; "delist_tx_args"; "0"; "token_address"]))
        (Trade.delistNFT env this c i p metadata) /\
  emits (build_request_says "create-accept-collection-bid-tx"
           (token ["condition"; "token_address"]))
        (Trade.acceptCollectionBid env this c i p metadata).
Proof.
  intros token. subst token. cbv beta.
  repeat split; unfold_operations; repeat says_step reflexivity.
Qed.

(** The listing of token 7 of 0xAA, as it goes out. *)
Example listNFT_sends_joined_token :
  exists body rest,
    calls (Trade.listNFT Scenario.happy Scenario.sdk "0xAA" "7" 100)
    = GetERC721ApprovalStatus "0xB0B" "0xAA"
      :: AxiosRequest (post "create-list-tx" "key-123" (Some body)) :: rest /\
    at_path ["condition"; "list_tx_args"; "0"; "token_address"] body
    = Some (JsonStr "0xAA_7") /\
    at_path ["condition"; "list_tx_args"; "0"; "seller_address"] body
    = Some (JsonStr "0xB0B").
Proof. do 2 eexists. split; [reflexivity|]. split; reflexivity. Qed.

(** X2. Every build request speaks for the wallet bound at construction:
    the [buyer_address] of a bid, a purchase and a bid cancellation, and the
    [seller_address] of a listing, a delisting and a bid acceptance, in the
    body sent are the wallet's own address, whatever the arguments are. *)
Theorem requests_name_the_wallet env this c i p metadata :
  let mine path j := at_path path j = Some (JsonStr (Trade.address (Trade.wallet this))) in
  emits (build_request_says "create-collection-bid-tx"
           (mine ["condition"; "buyer_address"]))
        (Trade.createCollectionBid env this c p) /\
  emits (build_request_says "create-list-tx"
           (mine ["condition"; "list_tx_args"; "0"; "seller_address"]))
        (Trade.listNFT env this c i p) /\
  emits (build_request_says "create-buy-tx"
           (mine ["condition"; "buy_tx_args"; "0"; "buyer_address"]))
        (Trade.buyNft env this c i p metadata) /\
  emits (build_request_says "create-accept-collection-bid-tx"
           (mine ["condition"; "seller_address"]))
        (Trade.acceptCollectionBid env this c i p metadata) /\
  emits (build_request_says "create-delist-tx"
           (mine ["condition"; "delist_tx_args"; "0"; "seller_address"]))
        (Trade.delistNFT env this c i p metadata) /\
  emits (build_request_says "create-cancel-collection-bid-tx"
           (mine ["condition"; "buyer_address"]))
        (Trade.cancelCollectionBid env this p metadata).
Proof.
  intros mine. subst mine. cbv beta.
  repeat split; unfold_operations; repeat says_step reflexivity.
Qed.

(** X15. For a price that is a safe integer, what [createCollectionBid]
    sends to its build endpoint states the price twice, as the number
    [condition.price] and as the string [condition.metadata.price], and what
    [listNFT] sends states it as the string [metadata.price] of the listing;
    the string is the decimal form of the number: read back as an integer
    ([BigInt]), it is the price that was passed in. *)
Theorem price_string_reads_back env this c i p :
  safe_integer p ->
  emits (build_request_says "create-collection-bid-tx"
           (fun j =>
              at_path ["condition"; "price"] j = Some (JsonNum p) /\
              exists s, at_path ["condition"; "metadata"; "price"] j = Some (JsonStr s) /\
                        BigInt (JStr s) = Return p))
        (Trade.createCollectionBid env this c p) /\
  emits (build_request_says "create-list-tx"
           (fun j =>
              exists s,
                at_path ["condition"; "list_tx_args"; "0"; "metadata"; "price"] j
                = Some (JsonStr s) /\
                BigInt (JStr s) = Return p))
        (Trade.listNFT env this c i p).
Proof.
  intros _.
  assert (R : BigInt (JStr ("" ++ Z_to_string p)) = Return p).
  { unfold BigInt. cbn [to_string append]. now rewrite parse_Z_to_string. }
  split; unfold_operations;
    repeat says_step
      ltac:(first [ split; [reflexivity | eexists; split; [reflexivity | exact R]]
                  | eexists; split; [reflexivity | exact R] ]).
Qed.

(** A bid of 1500. *)
Lemma price_string_reads_back_witness :
  exists new,
    snd (run (Trade.createCollectionBid Scenario.happy_order Scenario.sdk "0xAA" 1500)) = new /\
    Forall (build_request_says "create-collection-bid-tx"
              (fun j =>
                 at_path ["condition"; "price"] j = Some (JsonNum 1500) /\
                 exists s, at_path ["condition"; "metadata"; "price"] j = Some (JsonStr s) /\
                           BigInt (JStr s) = Return 1500)) new.
Proof.
  assert (S : safe_integer 1500) by (unfold safe_integer; lia).
  destruct (price_string_reads_back Scenario.happy_order Scenario.sdk "0xAA" "7" 1500 S)
    as [H _].
  destruct (H []) as (new & E & F).
  exists new. split; [exact E | exact F].
Defined.

Example bid_states_price_twice :
  exists body rest,
    calls (Trade.createCollectionBid Scenario.happy_order Scenario.sdk "0xAA" 1500)
    = GetWavaxBalance "0xB0B" :: GetWavaxApprovalStatus "0xB0B" (JBigInt 5)
      :: AxiosRequest (post "create-collection-bid-tx" "key-123" (Some body)) :: rest /\
    at_path ["condition"; "price"] body = Some (JsonNum 1500) /\
    at_path ["condition"; "metadata"; "price"] body = Some (JsonStr "1500").
Proof. do 2 eexists. split; [reflexivity|]. split; reflexivity. Qed.
